(** * socialChat: the IP ban system and the rate-limit middleware chain

    A shallow embedding of [server/index.js]: the two process-wide maps
    [ipBans] and [ipViolations], the functions [isBanned] and
    [recordViolation] that mutate them, the ban-check middleware, the custom
    [rateLimitHandler], and the order in which the limiters are mounted.

    Conventions.
    - JavaScript [Map]s keyed by the client address are [gmap string _];
      a mutation is a function from the old state to the new one.
    - Every [Date.now()] is an explicit argument of type [Z] (milliseconds
      since the epoch).  A function that reads the clock several times takes
      one argument per read, in source order.
    - [Math.floor (x / 1000)] on integral [x] is [x / 1000] in [Z]
      ([Z.div] rounds towards minus infinity for a positive divisor). *)

From Stdlib Require Import ZArith Lia List.
From stdpp Require Import gmap strings list fin_maps pretty.

Open Scope Z_scope.

(** ** The ban store and the violation log (index.js, lines 55-57) *)

(** [{ bannedUntil: timestamp, violations: count }] *)
Record BanRecord : Type := mkBan {
  bannedUntil : Z;
  violations : Z
}.

(** The two module-level maps, threaded explicitly. *)
Record State : Type := mkState {
  ipBans : gmap string BanRecord;
  ipViolations : gmap string (list Z)
}.

Definition emptyState : State := mkState ∅ ∅.

(** ** [isBanned] (index.js, lines 60-71)

    Returns the boolean together with the state after the call: the only
    mutation is [ipBans.delete(ip)] on the expired branch. *)
Definition isBanned (ip : string) (now : Z) (st : State) : bool * State :=
  match ipBans st !! ip with
  | None => (false, st)
  | Some ban =>
      if now >? bannedUntil ban
      then (false, mkState (delete ip (ipBans st)) (ipViolations st))
      else (true, st)
  end.

(** ** [recordViolation] (index.js, lines 74-98) *)

(** The predicate of [violations.filter]: [now - time < 5 * 60 * 1000]. *)
Definition isRecent (now time : Z) : bool := now - time <? 5 * 60 * 1000.

(** [const banDuration = 15 * 60 * 1000] *)
Definition banDuration : Z := 15 * 60 * 1000.

(** [recentViolations]: the filtered copy of the log with [now] pushed. *)
Definition recentViolations (ip : string) (now : Z) (st : State) : list Z :=
  List.filter (isRecent now) (default [] (ipViolations st !! ip)) ++ [now].

(** [(ipBans.get(ip) || { violations: 0 }).violations] *)
Definition existingViolations (ip : string) (st : State) : Z :=
  match ipBans st !! ip with
  | Some ban => violations ban
  | None => 0
  end.

Definition recordViolation (ip : string) (now : Z) (st : State) : State :=
  let recent := recentViolations ip now st in
  let logged := <[ip := recent]> (ipViolations st) in
  if (5 <=? length recent)%nat
  then mkState
         (<[ip := mkBan (now + banDuration) (existingViolations ip st + 1)]>
            (ipBans st))
         (delete ip logged)
  else mkState (ipBans st) logged.

(** Successive calls for one address, one clock reading per call. *)
Definition recordViolations (ip : string) (times : list Z) (st : State) : State :=
  fold_left (fun s t => recordViolation ip t s) times st.

(** ** Requests and responses *)

(** The fields of [req] that the middleware reads.  For the three address
    fields the empty string stands for a falsy value ([undefined] or the empty string);
    for the three URL fields [None] stands for [undefined]/[null], which is
    what the optional chaining [?.] guards against.  [req_underApiMount] is
    Express's own decision that the request path matches the mount path of
    [app.use('/api/', apiLimiter)]. *)
Record Request : Type := mkRequest {
  req_ip : string;
  req_xForwardedFor : string;
  req_remoteAddress : string;
  req_originalUrl : option string;
  req_url : option string;
  req_path : option string;
  req_underApiMount : bool
}.

Definition truthy (s : string) : bool :=
  match s with
  | EmptyString => false
  | String _ _ => true
  end.

(** [req.ip || req.headers['x-forwarded-for'] || req.connection.remoteAddress] *)
Definition clientIp (req : Request) : string :=
  if truthy (req_ip req) then req_ip req
  else if truthy (req_xForwardedFor req) then req_xForwardedFor req
  else req_remoteAddress req.

(** [s?.startsWith('/api/')], read as a condition. *)
Definition startsWithApi (s : option string) : bool :=
  match s with
  | Some s => String.prefix "/api/" s
  | None => false
  end.

(** [req.originalUrl?.startsWith('/api/') || req.url?.startsWith('/api/')
     || req.path?.startsWith('/api/')] *)
Definition isApiRequest (req : Request) : bool :=
  startsWithApi (req_originalUrl req)
  || startsWithApi (req_url req)
  || startsWithApi (req_path req).

(** What a middleware sends:
    - [SendFile 403 "../public/403.html"] is
      [res.status(403).sendFile(path.join(__dirname, '../public/403.html'))];
    - [Json 429 error retryAfter resetTime] is
      [res.status(429).json({ error, retryAfter, resetTime })];
    - [Redirect location] is [res.redirect(location)]. *)
Inductive Response : Type :=
  | SendFile (status : Z) (file : string)
  | Json (status : Z) (error : string) (retryAfter : Z) (resetTime : Z)
  | Redirect (location : string).

(** ** [rateLimitHandler] (index.js, lines 153-175)

    [limitReset] is [req.rateLimit.resetTime] in milliseconds.  The handler
    reads the clock three times itself ([tResetBase], [tResetDelta], [tWait],
    in source order) and once more inside [recordViolation] ([tViolation]). *)
Record HandlerClock : Type := mkHandlerClock {
  tResetBase : Z;
  tResetDelta : Z;
  tWait : Z;
  tViolation : Z
}.

Definition handlerAt (now : Z) : HandlerClock := mkHandlerClock now now now now.

(** [Math.floor(Date.now() / 1000) +
     Math.floor((req.rateLimit.resetTime - Date.now()) / 1000)] *)
Definition resetTimeOf (limitReset : Z) (hc : HandlerClock) : Z :=
  tResetBase hc / 1000 + (limitReset - tResetDelta hc) / 1000.

(** [Math.floor((req.rateLimit.resetTime - Date.now()) / 1000)] *)
Definition waitSecondsOf (limitReset : Z) (hc : HandlerClock) : Z :=
  (limitReset - tWait hc) / 1000.

Definition rateLimitHandler (req : Request) (limitReset : Z) (hc : HandlerClock)
    (st : State) : Response * State :=
  let ip := clientIp req in
  let resetTime := resetTimeOf limitReset hc in
  let waitSeconds := waitSecondsOf limitReset hc in
  let st' := recordViolation ip (tViolation hc) st in
  if isApiRequest req
  then (Json 429 "Too many requests. Please try again later." waitSeconds resetTime, st')
  else (Redirect ("/429.html?reset=" +:+ pretty resetTime), st').

(** ** The limiters (index.js, lines 178-212)

    [windowMs] and [max] are the options passed to [rateLimit] in index.js. *)
Inductive Tier : Type := Burst | Sustained | Api.

Definition windowMs (tier : Tier) : Z :=
  match tier with
  | Burst => 1000
  | Sustained => 60 * 1000
  | Api => 15 * 60 * 1000
  end.

Definition maxHits (tier : Tier) : Z :=
  match tier with
  | Burst => 50
  | Sustained => 100
  | Api => 200
  end.

Record LimiterWindow : Type := mkWindow {
  count : Z;
  windowStart : Z
}.

(** Modelled from the spec: the counting done inside the middleware that
    [rateLimit(...)] returns (the express-rate-limit package, not part of the
    repository's sources).  Section 4.3: with no window, or with an expired one
    ([now - windowStart >= windowMs]), start a fresh window with [count = 1];
    otherwise allow and increment while [count < max]; otherwise reject with
    [resetAt = windowStart + windowMs].  [None] is "allowed", [Some resetAt]
    is "rejected". *)
Definition checkAndConsume (tier : Tier) (identity : string) (now : Z)
    (store : gmap string LimiterWindow) : option Z * gmap string LimiterWindow :=
  let fresh := (None, <[identity := mkWindow 1 now]> store) in
  match store !! identity with
  | None => fresh
  | Some w =>
      if now - windowStart w >=? windowMs tier then fresh
      else if count w <? maxHits tier
      then (None, <[identity := mkWindow (count w + 1) (windowStart w)]> store)
      else (Some (windowStart w + windowMs tier), store)
  end.

(** One store per [rateLimit(...)] instance. *)
Record Limiters : Type := mkLimiters {
  burstStore : gmap string LimiterWindow;
  sustainedStore : gmap string LimiterWindow;
  apiStore : gmap string LimiterWindow
}.

Definition emptyLimiters : Limiters := mkLimiters ∅ ∅ ∅.

Definition getStore (tier : Tier) (lim : Limiters) : gmap string LimiterWindow :=
  match tier with
  | Burst => burstStore lim
  | Sustained => sustainedStore lim
  | Api => apiStore lim
  end.

Definition setStore (tier : Tier) (s : gmap string LimiterWindow) (lim : Limiters)
    : Limiters :=
  match tier with
  | Burst => mkLimiters s (sustainedStore lim) (apiStore lim)
  | Sustained => mkLimiters (burstStore lim) s (apiStore lim)
  | Api => mkLimiters (burstStore lim) (sustainedStore lim) s
  end.

(** ** The middleware chain (index.js, lines 101-219) *)

(** Everything the chain mutates. *)
Record World : Type := mkWorld {
  bans : State;
  lims : Limiters
}.

Definition emptyWorld : World := mkWorld emptyState emptyLimiters.

(** The clock readings of one pass of a request through the chain: the one
    inside [isBanned], one per limiter, and those of [rateLimitHandler]
    (at most one limiter rejects, so the handler runs at most once). *)
Record Clock : Type := mkClock {
  tBanCheck : Z;
  tLimiter : Tier -> Z;
  tHandler : HandlerClock
}.

Definition clockAt (now : Z) : Clock :=
  mkClock now (fun _ => now) (handlerAt now).

(** A middleware either sends a response (and does not call [next()]) or
    calls [next()]. *)
Inductive Outcome : Type :=
  | Responded (r : Response)
  | Next.

(** A middleware returns its outcome, the world it leaves, and the limiter
    tiers it evaluated (a record of what ran, not program state). *)
Definition Middleware : Type :=
  Request -> Clock -> World -> Outcome * World * list Tier.

(** [app.use((req, res, next) => { ... isBanned(ip) ... })], lines 101-114.
    On the banned branch the source also reads [ipBans.get(ip)] and the clock
    to build a log line; [isBanned] has just found that record, and the log
    line is not part of the response. *)
Definition banCheck : Middleware := fun req clk w =>
  let ip := clientIp req in
  let '(banned, st') := isBanned ip (tBanCheck clk) (bans w) in
  if banned
  then (Responded (SendFile 403 "../public/403.html"), mkWorld st' (lims w), [])
  else (Next, mkWorld st' (lims w), []).

(** The request logger, lines 117-142: it writes to the console and to
    [global.botRequestCount] only, and always calls [next()]. *)
Definition requestLogger : Middleware := fun req clk w => (Next, w, []).

(** The middleware returned by [rateLimit({ ..., handler: rateLimitHandler })]:
    count the request in the tier's own store; when the tier rejects, run
    [rateLimitHandler] with [req.rateLimit.resetTime] set to the tier's reset
    instant.  [rateLimitHandler] takes [(req, res)] only, so [next()] is not
    called after a rejection.  The store is keyed by the client address. *)
Definition limiter (tier : Tier) : Middleware := fun req clk w =>
  let '(verdict, store') :=
    checkAndConsume tier (clientIp req) (tLimiter clk tier) (getStore tier (lims w)) in
  let lims' := setStore tier store' (lims w) in
  match verdict with
  | None => (Next, mkWorld (bans w) lims', [tier])
  | Some resetAt =>
      let '(resp, st') := rateLimitHandler req resetAt (tHandler clk) (bans w) in
      (Responded resp, mkWorld st' lims', [tier])
  end.

(** [app.use(path, mw)]: [mw] runs only for requests under the mount path. *)
Definition mounted (matches : Request -> bool) (mw : Middleware) : Middleware :=
  fun req clk w => if matches req then mw req clk w else (Next, w, []).

(** Express runs the registered middleware in registration order and stops
    at the first one that does not call [next()]. *)
Fixpoint runChain (mws : list Middleware) (req : Request) (clk : Clock) (w : World)
    : Outcome * World * list Tier :=
  match mws with
  | [] => (Next, w, [])
  | mw :: rest =>
      match mw req clk w with
      | (Responded r, w', ran) => (Responded r, w', ran)
      | (Next, w', ran) =>
          let '(o, w'', ran') := runChain rest req clk w' in
          (o, w'', ran ++ ran')
      end
  end.

(** The registrations of lines 101, 117, 215, 216 and 219, in order.  A final
    [Next] hands the request to the routes registered after line 219. *)
Definition app : list Middleware :=
  [ banCheck;
    requestLogger;
    limiter Burst;
    limiter Sustained;
    mounted req_underApiMount (limiter Api) ].

Definition admission (req : Request) (clk : Clock) (w : World)
    : Outcome * World * list Tier :=
  runChain app req clk w.

(** A sequence of requests, served one after the other. *)
Fixpoint serve (reqs : list (Request * Clock)) (w : World)
    : list (Outcome * list Tier) * World :=
  match reqs with
  | [] => ([], w)
  | (req, clk) :: rest =>
      let '(o, w', ran) := admission req clk w in
      let '(os, w'') := serve rest w' in
      ((o, ran) :: os, w'')
  end.

(** The request a browser or script sends for the path [url] from address
    [ip], with no forwarding header.  For the paths used below Express's mount
    test for [/api/] and the prefix test agree. *)
Definition requestFor (ip url : string) : Request :=
  mkRequest ip EmptyString ip (Some url) (Some url) (Some url)
    (String.prefix "/api/" url).

(** ** Definitions used by the statements below *)

(** The order of operations as the specification words it: append the current
    timestamp first, then filter to the trailing window.  Compared with
    [recentViolations] (filter, then push) in [append_then_filter]. *)
Definition appendThenFilter (now : Z) (log : list Z) : list Z :=
  List.filter (isRecent now) (log ++ [now]).

(** The log the specification's wording stores for [ip] at [now]. *)
Definition keptLog (ip : string) (now : Z) (st : State) : list Z :=
  appendThenFilter now (default [] (ipViolations st !! ip)).

(** [n] requests for [url] from [ip], all arriving at clock reading [now]. *)
Definition burstOf (ip url : string) (now : Z) (n : nat) : list (Request * Clock) :=
  repeat (requestFor ip url, clockAt now) n.

(** A state in which ["X"] holds a ban until [bannedUntil = 1000], recorded
    as its first. *)
Definition bannedX : State := mkState {[ "X" := mkBan 1000 1 ]} ∅.

(** A state in which ["X"] has four violations on record. *)
Definition fourStrikes : State := mkState ∅ {[ "X" := [10; 20; 30; 40] ]}.

(** Whether [tier] lets the request through, judged on the tier's own store. *)
Definition tierAllows (tier : Tier) (req : Request) (clk : Clock) (w : World) : bool :=
  match (checkAndConsume tier (clientIp req) (tLimiter clk tier)
           (getStore tier (lims w))).1 with
  | None => true
  | Some _ => false
  end.

(** The tiers the chain evaluates for a request that the ban check lets
    through: each tier runs only if every tier before it allowed. *)
Definition tiersRun (req : Request) (clk : Clock) (w : World) : list Tier :=
  Burst ::
  (if tierAllows Burst req clk w
   then Sustained ::
        (if tierAllows Sustained req clk w
         then (if req_underApiMount req then [Api] else [])
         else [])
   else []).

(** The world after ["X"] has sent 50 page requests at clock reading 0. *)
Definition afterFifty : World :=
  (serve (burstOf "X" "/index.html" 0 50) emptyWorld).2.

(** A pass in which the clock moves from 999 to 1001 between the limiter's
    reading and the handler's readings. *)
Definition tickingClock : Clock := mkClock 999 (fun _ => 999) (handlerAt 1001).

(** ["X"] sends 55 API requests at clock reading 0, and 55 more at 900001,
    one millisecond after the ban earned by the first batch has run out. *)
Definition afterFirstBatch : World :=
  (serve (burstOf "X" "/api/posts" 0 55) emptyWorld).2.

Definition afterSecondBatch : World :=
  (serve (burstOf "X" "/api/posts" 900001 55) afterFirstBatch).2.

(** ** The request logger's bot counter (index.js, lines 52-53 and 117-142)

    The regular expressions of the logger use literal alternatives only, so
    [re.test(s)] is a substring test, and with a final [$] a suffix test.
    Strings are sequences of bytes; the flag [i] folds the ASCII letters and
    nothing else onto the (ASCII, lower-case) patterns. *)

Definition lowerAscii (c : Ascii.ascii) : Ascii.ascii :=
  let n := Ascii.nat_of_ascii c in
  if ((65 <=? n) && (n <=? 90))%nat then Ascii.ascii_of_nat (n + 32) else c.

Fixpoint lower (s : string) : string :=
  match s with
  | EmptyString => EmptyString
  | String c s' => String (lowerAscii c) (lower s')
  end.

(** [word] occurs somewhere in [s]. *)
Fixpoint contains (word s : string) : bool :=
  String.prefix word s
  || match s with
     | EmptyString => false
     | String _ s' => contains word s'
     end.

(** [s] ends with [suffix]. *)
Fixpoint endsWith (suffix s : string) : bool :=
  String.eqb suffix s
  || match s with
     | EmptyString => false
     | String _ s' => endsWith suffix s'
     end.

(** [/\.(css|js|png|jpg|jpeg|gif|svg|ico|woff|woff2)$/] *)
Definition staticExtensions : list string :=
  ["css"; "js"; "png"; "jpg"; "jpeg"; "gif"; "svg"; "ico"; "woff"; "woff2"].

Definition isStaticAsset (path : string) : bool :=
  existsb (fun ext => endsWith ("." +:+ ext) path) staticExtensions.

(** [req.path === '/health' || req.path === '/api/health'] *)
Definition isHealthCheck (path : string) : bool :=
  String.eqb path "/health" || String.eqb path "/api/health".

(** [/bot|crawler|spider|scraper|scanner|curl|wget|python-requests/i] *)
Definition botWords : list string :=
  ["bot"; "crawler"; "spider"; "scraper"; "scanner"; "curl"; "wget";
   "python-requests"].

Definition isBot (userAgent : string) : bool :=
  existsb (fun word => contains word (lower userAgent)) botWords.

(** [/wp-admin|wp-content|\.env|config\.json|\.git|admin\.php|phpinfo|\.sql|backup|database/i] *)
Definition scannerWords : list string :=
  ["wp-admin"; "wp-content"; ".env"; "config.json"; ".git"; "admin.php";
   "phpinfo"; ".sql"; "backup"; "database"].

Definition isScannerPath (path : string) : bool :=
  existsb (fun word => contains word (lower path)) scannerWords.

(** What the logger reads of a request: [req.path] and
    [req.headers['user-agent']] ([None] when the header is missing). *)
Record LoggedRequest : Type := mkLogged {
  lr_path : string;
  lr_userAgent : option string
}.

(** [req.headers['user-agent'] || 'Unknown'] *)
Definition userAgentOf (r : LoggedRequest) : string :=
  match lr_userAgent r with
  | Some ua => if truthy ua then ua else "Unknown"
  | None => "Unknown"
  end.

(** The logger's effect on [global.botRequestCount]. *)
Definition logRequest (r : LoggedRequest) (botRequestCount : Z) : Z :=
  if negb (isStaticAsset (lr_path r)) && negb (isHealthCheck (lr_path r))
  then
    if isBot (userAgentOf r) || isScannerPath (lr_path r)
    then botRequestCount + 1
    else botRequestCount
  else botRequestCount.

(** The counter after a sequence of requests. *)
Definition logRequests (rs : list LoggedRequest) (botRequestCount : Z) : Z :=
  fold_left (fun n r => logRequest r n) rs botRequestCount.

(** ** The log line of the ban check (index.js, lines 105-106) *)

(** [Math.ceil(x / d)] on integers, for a positive [d]. *)
Definition ceilDiv (x d : Z) : Z := - ((- x) / d).

(** [Math.ceil((ban.bannedUntil - Date.now()) / 60000)] *)
Definition minutesLeft (ban : BanRecord) (now : Z) : Z :=
  ceilDiv (bannedUntil ban - now) 60000.

(** ** The moderation page (index.js, lines 222-242)

    [query] is the database call of [./db], with the row of
    [SELECT is_admin FROM users WHERE id = $1] reduced to the truth value of
    its [is_admin] column; [QueryFailed] is a rejected promise.  The session's
    [userId] is [None] when unset, and [0] is falsy like [undefined]. *)
Record UserRow : Type := mkUserRow {
  is_admin : bool
}.

Inductive QueryResult : Type :=
  | QueryFailed
  | QueryRows (rows : list UserRow).

Definition moderationPage (userId : option Z) (query : Z -> QueryResult)
    : Response :=
  match userId with
  | None => Redirect "/403.html"
  | Some id =>
      if id =? 0 then Redirect "/403.html"
      else
        match query id with
        | QueryFailed => Redirect "/403.html"
        | QueryRows [] => Redirect "/403.html"
        | QueryRows (row :: _) =>
            if is_admin row
            then SendFile 200 "../public/moderation.html"
            else Redirect "/403.html"
        end
  end.

(** ** Further definitions used by the statements below *)

(** Every timestamp of [ts] is at least 5 minutes after the one before it,
    starting from [prev]. *)
Fixpoint spacedFrom (prev : Z) (ts : list Z) : Prop :=
  match ts with
  | [] => True
  | t :: ts' => 5 * 60 * 1000 <= t - prev /\ spacedFrom t ts'
  end.

(** The violation log of [ip], empty when there is none. *)
Definition logOf (ip : string) (st : State) : list Z :=
  default [] (ipViolations st !! ip).

(** ["X"] has four violations on record and has used up its burst window. *)
Definition aboutToBan : World := mkWorld fourStrikes (lims afterFifty).

(* ===================================================================== *)
(** * Properties of the ban store *)
(* ===================================================================== *)

Section BanStore.

Implicit Types (ip : string) (now : Z) (st : State).

Lemma isBanned_absent ip now st :
  ipBans st !! ip = None -> isBanned ip now st = (false, st).
Proof. unfold isBanned. intros ->. reflexivity. Qed.

Lemma isBanned_expired ip now st ban :
  ipBans st !! ip = Some ban ->
  now > bannedUntil ban ->
  isBanned ip now st = (false, mkState (delete ip (ipBans st)) (ipViolations st)).
Proof.
  unfold isBanned. intros -> Hlate.
  destruct (Z.gtb_spec now (bannedUntil ban)); [reflexivity | lia].
Qed.

Lemma isBanned_active ip now st ban :
  ipBans st !! ip = Some ban ->
  now <= bannedUntil ban ->
  isBanned ip now st = (true, st).
Proof.
  unfold isBanned. intros -> Hearly.
  destruct (Z.gtb_spec now (bannedUntil ban)); [lia | reflexivity].
Qed.

(** After any call the record of [ip] is either gone or still active. *)
Lemma isBanned_post ip now st :
  match ipBans (isBanned ip now st).2 !! ip with
  | None => (isBanned ip now st).1 = false
  | Some ban => (isBanned ip now st).1 = true /\ now <= bannedUntil ban
  end.
Proof.
  unfold isBanned. destruct (ipBans st !! ip) as [ban|] eqn:Hb; simpl.
  - destruct (Z.gtb_spec now (bannedUntil ban)); simpl.
    + rewrite lookup_delete_eq. reflexivity.
    + rewrite Hb. split; [reflexivity | lia].
  - rewrite Hb. reflexivity.
Qed.

(** C3. [isBanned ip] returns false and changes nothing when [ip] has no ban
    record; when a record exists and [now] is strictly past its [bannedUntil]
    it deletes that record (and nothing else) and returns false; otherwise,
    that is while [now <= bannedUntil], it returns true and changes nothing.
    The answer therefore flips from true to false exactly when [now] crosses
    [bannedUntil], by the call itself. *)
Theorem isBanned_spec ip now st :
  (ipBans st !! ip = None -> isBanned ip now st = (false, st))
  /\ (forall ban, ipBans st !! ip = Some ban -> now > bannedUntil ban ->
        isBanned ip now st
        = (false, mkState (delete ip (ipBans st)) (ipViolations st))
        /\ ipBans (isBanned ip now st).2 !! ip = None)
  /\ (forall ban, ipBans st !! ip = Some ban -> now <= bannedUntil ban ->
        isBanned ip now st = (true, st)).
Proof.
  split; [apply isBanned_absent|]. split.
  - intros ban Hb Hlate. rewrite (isBanned_expired _ _ _ _ Hb Hlate).
    split; [reflexivity|]. simpl. apply lookup_delete_eq.
  - intros ban Hb Hearly. exact (isBanned_active _ _ _ _ Hb Hearly).
Qed.

(** The three cases of [isBanned_spec] at ["X"], banned until 1000: a state
    without a record, the record seen at 1001, and the record seen at 1000. *)
Lemma isBanned_spec_witness :
  isBanned "X" 1000 emptyState = (false, emptyState)
  /\ (isBanned "X" 1001 bannedX = (false, mkState (delete "X" (ipBans bannedX)) ∅)
      /\ ipBans (isBanned "X" 1001 bannedX).2 !! "X" = None)
  /\ isBanned "X" 1000 bannedX = (true, bannedX).
Proof.
  split; [| split].
  - apply (proj1 (isBanned_spec "X" 1000 emptyState)). reflexivity.
  - apply (proj1 (proj2 (isBanned_spec "X" 1001 bannedX)) (mkBan 1000 1)).
    + reflexivity.
    + simpl. lia.
  - apply (proj2 (proj2 (isBanned_spec "X" 1000 bannedX)) (mkBan 1000 1)).
    + reflexivity.
    + simpl. lia.
Defined.

(** C10. Calling [isBanned ip] twice at the same clock reading gives the same
    boolean both times, and the second call leaves the state as the first
    call left it: the expired record is deleted by the first call only. *)
Theorem isBanned_idempotent ip now st :
  isBanned ip now (isBanned ip now st).2
  = ((isBanned ip now st).1, (isBanned ip now st).2).
Proof.
  pose proof (isBanned_post ip now st) as Hpost.
  destruct (isBanned ip now st) as [b st1] eqn:Hcall. simpl in *.
  destruct (ipBans st1 !! ip) as [ban|] eqn:Hb.
  - destruct Hpost as [-> Hle]. exact (isBanned_active _ _ _ _ Hb Hle).
  - rewrite Hpost. exact (isBanned_absent _ _ _ Hb).
Qed.

End BanStore.

(* ===================================================================== *)
(** * Properties of the violation tracker *)
(* ===================================================================== *)

Section ViolationTracker.

Implicit Types (ip : string) (now t : Z) (st : State) (log : list Z).

Lemma isRecent_spec now t : isRecent now t = true <-> now - t < 5 * 60 * 1000.
Proof. unfold isRecent. apply Z.ltb_lt. Qed.

Lemma isRecent_now now : isRecent now now = true.
Proof. apply isRecent_spec. lia. Qed.

(** Filtering and then pushing [now] (the source) stores the same log as
    appending [now] and then filtering (the specification's wording). *)
Lemma append_then_filter now log :
  appendThenFilter now log = List.filter (isRecent now) log ++ [now].
Proof.
  unfold appendThenFilter. rewrite List.filter_app. simpl.
  rewrite isRecent_now. reflexivity.
Qed.

Lemma recentViolations_keptLog ip now st :
  recentViolations ip now st = keptLog ip now st.
Proof. unfold recentViolations, keptLog. symmetry. apply append_then_filter. Qed.

Lemma filter_all_recent now log :
  Forall (fun t => now - t < 5 * 60 * 1000) log ->
  List.filter (isRecent now) log = log.
Proof.
  induction 1 as [|t log Ht _ IH]; simpl; [reflexivity|].
  rewrite (proj2 (isRecent_spec now t) Ht), IH. reflexivity.
Qed.

Lemma filter_none_recent now log :
  Forall (fun t => 5 * 60 * 1000 <= now - t) log ->
  List.filter (isRecent now) log = [].
Proof.
  induction 1 as [|t log Ht _ IH]; simpl; [reflexivity|].
  destruct (isRecent now t) eqn:E; [|exact IH].
  apply isRecent_spec in E. lia.
Qed.

Lemma keptLog_recent ip now st :
  Forall (fun t => now - t < 5 * 60 * 1000) (keptLog ip now st).
Proof.
  unfold keptLog, appendThenFilter. apply List.Forall_forall.
  intros t Hin. apply List.filter_In in Hin. apply isRecent_spec, Hin.
Qed.

Lemma keptLog_nonempty ip now st : (1 <= length (keptLog ip now st))%nat.
Proof.
  unfold keptLog. rewrite append_then_filter, length_app. simpl. lia.
Qed.

(** The two branches of [recordViolation]. *)
Lemma recordViolation_reached ip now st :
  (5 <= length (keptLog ip now st))%nat ->
  recordViolation ip now st
  = mkState (<[ip := mkBan (now + 15 * 60 * 1000) (existingViolations ip st + 1)]>
               (ipBans st))
            (delete ip (ipViolations st)).
Proof.
  intros Hlen. unfold recordViolation. rewrite recentViolations_keptLog.
  destruct (Nat.leb_spec 5 (length (keptLog ip now st))); [|lia].
  rewrite delete_insert_eq. reflexivity.
Qed.

Lemma recordViolation_below ip now st :
  (length (keptLog ip now st) < 5)%nat ->
  recordViolation ip now st
  = mkState (ipBans st) (<[ip := keptLog ip now st]> (ipViolations st)).
Proof.
  intros Hlen. unfold recordViolation. rewrite recentViolations_keptLog.
  destruct (Nat.leb_spec 5 (length (keptLog ip now st))); [lia|reflexivity].
Qed.

(** C4. [recordViolation ip] works on the log obtained by appending the
    current timestamp to the log of [ip] and keeping the entries of the
    trailing 5-minute window ([now - t < 5 min]).  If that log has 5 entries
    or more, the call bans [ip] until [now + 15 min] (counting one more
    violation than the previous record, if any) and deletes the log of [ip];
    if it has fewer, the ban store is left as it was and the log is stored.
    So a ban is created if and only if the filtered log reaches 5 entries. *)
Theorem recordViolation_spec ip now st :
  Forall (fun t => now - t < 5 * 60 * 1000) (keptLog ip now st)
  /\ ((5 <= length (keptLog ip now st))%nat ->
        recordViolation ip now st
        = mkState
            (<[ip := mkBan (now + 15 * 60 * 1000) (existingViolations ip st + 1)]>
               (ipBans st))
            (delete ip (ipViolations st)))
  /\ ((length (keptLog ip now st) < 5)%nat ->
        recordViolation ip now st
        = mkState (ipBans st) (<[ip := keptLog ip now st]> (ipViolations st))).
Proof.
  split; [apply keptLog_recent|].
  split; [apply recordViolation_reached | apply recordViolation_below].
Qed.

(** C9. After [recordViolation ip], either the log of [ip] is absent, which
    happens exactly on the branch that has just banned [ip], or it is stored
    with between 1 and 4 entries and the ban store is untouched.  A stored log
    never has 5 entries or more. *)
Theorem recordViolation_log_bounded ip now st :
  (ipViolations (recordViolation ip now st) !! ip = None
   /\ ipBans (recordViolation ip now st) !! ip
      = Some (mkBan (now + 15 * 60 * 1000) (existingViolations ip st + 1)))
  \/ (exists log,
        ipViolations (recordViolation ip now st) !! ip = Some log
        /\ (1 <= length log)%nat /\ (length log <= 4)%nat
        /\ ipBans (recordViolation ip now st) = ipBans st).
Proof.
  destruct (Nat.le_gt_cases 5 (length (keptLog ip now st))) as [Hge|Hlt].
  - left. rewrite (recordViolation_reached _ _ _ Hge). simpl.
    rewrite lookup_delete_eq, lookup_insert_eq. split; reflexivity.
  - right. exists (keptLog ip now st).
    rewrite (recordViolation_below _ _ _ Hlt). simpl.
    rewrite lookup_insert_eq. pose proof (keptLog_nonempty ip now st).
    repeat split; [assumption | lia].
Qed.

End ViolationTracker.

Section ViolationSequences.

Implicit Types (ip : string) (now t : Z) (log : list Z).
Implicit Types (B : gmap string BanRecord) (V : gmap string (list Z)).

(** A call that finds [log], all of it recent and shorter than 4, stores
    [log ++ [now]] and leaves the ban store alone. *)
Lemma recordViolation_push ip now B V log :
  default [] (V !! ip) = log ->
  Forall (fun t => now - t < 5 * 60 * 1000) log ->
  (length log < 4)%nat ->
  recordViolation ip now (mkState B V) = mkState B (<[ip := log ++ [now]]> V).
Proof.
  intros Hlog Hrecent Hlen.
  assert (Hkept : keptLog ip now (mkState B V) = log ++ [now]).
  { unfold keptLog. simpl. rewrite Hlog, append_then_filter.
    rewrite (filter_all_recent _ _ Hrecent). reflexivity. }
  rewrite recordViolation_below; rewrite Hkept; [reflexivity|].
  rewrite length_app. simpl. lia.
Qed.

(** A call that finds four recent entries bans and deletes the log. *)
Lemma recordViolation_fifth ip now B V log :
  default [] (V !! ip) = log ->
  Forall (fun t => now - t < 5 * 60 * 1000) log ->
  length log = 4%nat ->
  recordViolation ip now (mkState B V)
  = mkState (<[ip := mkBan (now + 15 * 60 * 1000)
                       (existingViolations ip (mkState B V) + 1)]> B)
            (delete ip V).
Proof.
  intros Hlog Hrecent Hlen.
  assert (Hkept : keptLog ip now (mkState B V) = log ++ [now]).
  { unfold keptLog. simpl. rewrite Hlog, append_then_filter.
    rewrite (filter_all_recent _ _ Hrecent). reflexivity. }
  rewrite recordViolation_reached; [reflexivity|].
  rewrite Hkept, length_app. simpl. lia.
Qed.

(** A call that finds only entries at least 5 minutes old starts over. *)
Lemma recordViolation_restart ip now B V log :
  default [] (V !! ip) = log ->
  Forall (fun t => 5 * 60 * 1000 <= now - t) log ->
  recordViolation ip now (mkState B V) = mkState B (<[ip := [now]]> V).
Proof.
  intros Hlog Hold.
  assert (Hkept : keptLog ip now (mkState B V) = [now]).
  { unfold keptLog. simpl. rewrite Hlog, append_then_filter.
    rewrite (filter_none_recent _ _ Hold). reflexivity. }
  rewrite recordViolation_below; rewrite Hkept; [reflexivity | simpl; lia].
Qed.

Ltac recent_entries := repeat constructor; lia.

(** Four violations of [ip], in order and within one window, on an empty
    log: the log grows to the four timestamps and no ban is made on the way. *)
Lemma four_violations ip t1 t2 t3 t4 B V :
  V !! ip = None ->
  t1 <= t2 -> t2 <= t3 -> t3 <= t4 -> t4 - t1 < 5 * 60 * 1000 ->
  recordViolations ip [t1] (mkState B V) = mkState B (<[ip := [t1]]> V)
  /\ recordViolations ip [t1; t2] (mkState B V) = mkState B (<[ip := [t1; t2]]> V)
  /\ recordViolations ip [t1; t2; t3] (mkState B V)
     = mkState B (<[ip := [t1; t2; t3]]> V)
  /\ recordViolations ip [t1; t2; t3; t4] (mkState B V)
     = mkState B (<[ip := [t1; t2; t3; t4]]> V).
Proof.
  intros Hnone H12 H23 H34 Hwin. unfold recordViolations. simpl.
  rewrite (recordViolation_push ip t1 B V []);
    [| rewrite Hnone; reflexivity | constructor | simpl; lia].
  simpl.
  rewrite (recordViolation_push ip t2 B _ [t1]);
    [| rewrite lookup_insert_eq; reflexivity | recent_entries | simpl; lia].
  rewrite insert_insert_eq. simpl.
  rewrite (recordViolation_push ip t3 B _ [t1; t2]);
    [| rewrite lookup_insert_eq; reflexivity | recent_entries | simpl; lia].
  rewrite insert_insert_eq. simpl.
  rewrite (recordViolation_push ip t4 B _ [t1; t2; t3]);
    [| rewrite lookup_insert_eq; reflexivity | recent_entries | simpl; lia].
  rewrite insert_insert_eq. simpl.
  repeat split; reflexivity.
Qed.

(** C5. Start from a state in which [ip] has no violation log and record
    violations at [t1 <= t2 <= t3 <= t4], all within one 5-minute window.
    - If a fifth violation follows at [t5] within the same window, the ban
      store is unchanged after each of the first four calls and the fifth
      call writes one ban record, until [t5 + 15 min], counting exactly one
      violation more than before; the log of [ip] is gone again.
    - If instead nothing happens until the entries are all 5 minutes old,
      no ban has been made, and the next violation at [t] makes none either:
      it stores the one-entry log [[t]]. *)
Theorem five_violations_one_ban ip t1 t2 t3 t4 (st : State) :
  ipViolations st !! ip = None ->
  t1 <= t2 -> t2 <= t3 -> t3 <= t4 -> t4 - t1 < 5 * 60 * 1000 ->
  (forall t5, t4 <= t5 -> t5 - t1 < 5 * 60 * 1000 ->
     (forall k, (k < 5)%nat ->
        ipBans (recordViolations ip (take k [t1; t2; t3; t4; t5]) st) = ipBans st)
     /\ recordViolations ip [t1; t2; t3; t4; t5] st
        = mkState
            (<[ip := mkBan (t5 + 15 * 60 * 1000) (existingViolations ip st + 1)]>
               (ipBans st))
            (ipViolations st))
  /\ (ipBans (recordViolations ip [t1; t2; t3; t4] st) = ipBans st
      /\ forall t, 5 * 60 * 1000 <= t - t4 ->
           recordViolation ip t (recordViolations ip [t1; t2; t3; t4] st)
           = mkState (ipBans st) (<[ip := [t]]> (ipViolations st))).
Proof.
  destruct st as [B V]. cbn [ipViolations ipBans]. intros Hnone H12 H23 H34 Hwin.
  destruct (four_violations ip t1 t2 t3 t4 B V Hnone H12 H23 H34 Hwin)
    as (R1 & R2 & R3 & R4).
  split.
  - intros t5 H45 Hwin5. split.
    + intros k Hk.
      destruct k as [|[|[|[|[|k]]]]]; simpl take;
        [reflexivity | rewrite R1 | rewrite R2 | rewrite R3 | rewrite R4 | lia];
        reflexivity.
    + change [t1; t2; t3; t4; t5] with ([t1; t2; t3; t4] ++ [t5]).
      unfold recordViolations. rewrite fold_left_app.
      fold (recordViolations ip [t1; t2; t3; t4] (mkState B V)). rewrite R4.
      cbn [fold_left].
      rewrite (recordViolation_fifth ip t5 B _ [t1; t2; t3; t4]);
        [| rewrite lookup_insert_eq; reflexivity | recent_entries | reflexivity].
      rewrite delete_insert_id by assumption. reflexivity.
  - rewrite R4. cbn [ipBans]. split; [reflexivity|].
    intros t Hold.
    rewrite (recordViolation_restart ip t B _ [t1; t2; t3; t4]);
      [| rewrite lookup_insert_eq; reflexivity | recent_entries].
    rewrite insert_insert_eq. reflexivity.
Qed.

End ViolationSequences.

(** The branches of [recordViolation_spec] at ["X"]: a fifth violation at 50
    on top of four recent ones bans until [50 + 15 min] and deletes the log;
    a first violation at 50 stores [[50]]. *)
Lemma recordViolation_spec_witness :
  recordViolation "X" 50 fourStrikes
  = mkState (<["X" := mkBan (50 + 15 * 60 * 1000) (0 + 1)]> ∅)
            (delete "X" (ipViolations fourStrikes))
  /\ recordViolation "X" 50 emptyState = mkState ∅ (<["X" := [50]]> ∅)
  /\ Forall (fun t => 50 - t < 5 * 60 * 1000) [10; 20; 30; 40; 50].
Proof.
  split; [| split].
  - apply (proj1 (proj2 (recordViolation_spec "X" 50 fourStrikes))).
    vm_compute. lia.
  - apply (proj2 (proj2 (recordViolation_spec "X" 50 emptyState))).
    vm_compute. lia.
  - exact (proj1 (recordViolation_spec "X" 50 fourStrikes)).
Defined.

(** [five_violations_one_ban] at ["X"] with violations at 10, 20, 30, 40 and
    then either a fifth at 50 or, after the window has passed, one at 300040. *)
Lemma five_violations_one_ban_witness :
  recordViolations "X" [10; 20; 30; 40; 50] emptyState
  = mkState (<["X" := mkBan (50 + 15 * 60 * 1000) (0 + 1)]> ∅) ∅
  /\ ipBans (recordViolations "X" [10; 20; 30; 40] emptyState) = ∅
  /\ recordViolation "X" 300040 (recordViolations "X" [10; 20; 30; 40] emptyState)
     = mkState ∅ (<["X" := [300040]]> ∅).
Proof.
  assert (H : (emptyState.(ipViolations) : gmap string (list Z)) !! "X" = None)
    by reflexivity.
  pose proof (five_violations_one_ban "X" 10 20 30 40 emptyState H
                ltac:(lia) ltac:(lia) ltac:(lia) ltac:(lia)) as [Hfive [Hfour Hnext]].
  split; [| split].
  - exact (proj2 (Hfive 50 ltac:(lia) ltac:(lia))).
  - exact Hfour.
  - exact (Hnext 300040 ltac:(lia)).
Defined.

(* ===================================================================== *)
(** * Properties of the middleware chain *)
(* ===================================================================== *)

Section Chain.

Implicit Types (req : Request) (clk : Clock) (w : World) (tier : Tier).

(** An active ban ends the chain in [banCheck]. *)
Lemma admission_banned req clk w ban :
  ipBans (bans w) !! clientIp req = Some ban ->
  tBanCheck clk <= bannedUntil ban ->
  admission req clk w = (Responded (SendFile 403 "../public/403.html"), w, []).
Proof.
  intros Hb Hactive. unfold admission, app. cbn [runChain]. unfold banCheck.
  rewrite (isBanned_active _ _ _ _ Hb Hactive). destruct w; reflexivity.
Qed.

Lemma runChain_next (mw : Middleware) rest req clk w w' ran :
  mw req clk w = (Next, w', ran) ->
  runChain (mw :: rest) req clk w
  = (let '(o, w'', ran') := runChain rest req clk w' in (o, w'', ran ++ ran')).
Proof. intros H. cbn [runChain]. rewrite H. reflexivity. Qed.

Lemma runChain_responded (mw : Middleware) rest req clk w w' ran r :
  mw req clk w = (Responded r, w', ran) ->
  runChain (mw :: rest) req clk w = (Responded r, w', ran).
Proof. intros H. cbn [runChain]. rewrite H. reflexivity. Qed.

(** Past the ban check the request meets the limiters, on the ban state that
    [isBanned] left. *)
Lemma admission_not_banned req clk w :
  (isBanned (clientIp req) (tBanCheck clk) (bans w)).1 = false ->
  admission req clk w
  = runChain [limiter Burst; limiter Sustained;
              mounted req_underApiMount (limiter Api)]
      req clk
      (mkWorld (isBanned (clientIp req) (tBanCheck clk) (bans w)).2 (lims w)).
Proof.
  intros Hnb. unfold admission, app.
  set (w1 := mkWorld (isBanned (clientIp req) (tBanCheck clk) (bans w)).2 (lims w)).
  assert (Hban : banCheck req clk w = (Next, w1, [])).
  { unfold banCheck, w1.
    destruct (isBanned (clientIp req) (tBanCheck clk) (bans w)) as [b st'].
    simpl in Hnb. subst b. reflexivity. }
  rewrite (runChain_next _ _ _ _ _ _ _ Hban).
  rewrite (runChain_next requestLogger _ req clk w1 w1 []) by reflexivity.
  destruct (runChain _ req clk w1) as [[o w'] ran]. reflexivity.
Qed.

Lemma limiter_allowed tier req clk w :
  tierAllows tier req clk w = true ->
  limiter tier req clk w
  = (Next,
     mkWorld (bans w)
       (setStore tier
          (checkAndConsume tier (clientIp req) (tLimiter clk tier)
             (getStore tier (lims w))).2
          (lims w)),
     [tier]).
Proof.
  unfold tierAllows, limiter.
  destruct (checkAndConsume _ _ _ _) as [[resetAt|] s]; simpl;
    [discriminate | reflexivity].
Qed.

Lemma limiter_rejected tier req clk w :
  tierAllows tier req clk w = false ->
  exists resetAt,
    (checkAndConsume tier (clientIp req) (tLimiter clk tier)
       (getStore tier (lims w))).1 = Some resetAt
    /\ limiter tier req clk w
       = (Responded (rateLimitHandler req resetAt (tHandler clk) (bans w)).1,
          mkWorld (rateLimitHandler req resetAt (tHandler clk) (bans w)).2
            (setStore tier
               (checkAndConsume tier (clientIp req) (tLimiter clk tier)
                  (getStore tier (lims w))).2
               (lims w)),
          [tier]).
Proof.
  unfold tierAllows, limiter.
  destruct (checkAndConsume _ _ _ _) as [[resetAt|] s]; simpl;
    [| discriminate].
  intros _. exists resetAt. split; [reflexivity|].
  destruct (rateLimitHandler _ _ _ _). reflexivity.
Qed.

(** A tier's verdict depends on its own store only. *)
Lemma tierAllows_store tier req clk w w' :
  getStore tier (lims w') = getStore tier (lims w) ->
  tierAllows tier req clk w' = tierAllows tier req clk w.
Proof. unfold tierAllows. intros ->. reflexivity. Qed.

Lemma rateLimitHandler_state req limitReset (hc : HandlerClock) (st : State) :
  (rateLimitHandler req limitReset hc st).2
  = recordViolation (clientIp req) (tViolation hc) st.
Proof. unfold rateLimitHandler. destruct (isApiRequest req); reflexivity. Qed.

(** What one limiter does: it rewrites its own store, reports itself as
    evaluated, and either calls [next()] on an untouched ban state or answers
    through [rateLimitHandler], which records one violation. *)
Lemma limiter_run tier req clk w :
  exists o st',
    limiter tier req clk w
    = (o,
       mkWorld st'
         (setStore tier
            (checkAndConsume tier (clientIp req) (tLimiter clk tier)
               (getStore tier (lims w))).2
            (lims w)),
       [tier])
    /\ (if tierAllows tier req clk w
        then o = Next /\ st' = bans w
        else (exists r, o = Responded r)
             /\ st' = recordViolation (clientIp req) (tViolation (tHandler clk))
                        (bans w)).
Proof.
  destruct (tierAllows tier req clk w) eqn:E.
  - exists Next, (bans w). split; [apply limiter_allowed, E | split; reflexivity].
  - destruct (limiter_rejected _ _ _ _ E) as (resetAt & _ & Hrun).
    eexists _, _. split; [exact Hrun|].
    split; [eexists; reflexivity | apply rateLimitHandler_state].
Qed.

Ltac tier_cases :=
  repeat match goal with
  | H : _ ∈ [] |- _ => inversion H
  | H : _ ∈ _ :: _ |- _ => inversion H; clear H; subst
  end.

Ltac tier_absent :=
  match goal with
  | H : ?t ∉ _ |- _ =>
      destruct t; try reflexivity; exfalso; apply H; repeat constructor
  end.

Ltac tier_stores :=
  cbn; repeat split; intros ? ?; [tier_cases; reflexivity | tier_absent].

(** C2. While the ban of an address is active ([now <= bannedUntil] at the
    ban check), every request from that address is answered 403 by the ban
    check itself: no limiter tier is evaluated, and neither the limiter
    stores, nor the violation log, nor the ban store change.  This holds for
    any sequence of such requests and whatever the limiter stores contain. *)
Theorem banned_requests_short_circuit (reqs : list (Request * Clock)) w
    (ip : string) ban :
  ipBans (bans w) !! ip = Some ban ->
  Forall (fun rc => clientIp rc.1 = ip /\ tBanCheck rc.2 <= bannedUntil ban) reqs ->
  serve reqs w
  = (map (fun _ => (Responded (SendFile 403 "../public/403.html"), [])) reqs, w).
Proof.
  intros Hb Hall. induction Hall as [|[req clk] reqs [Hip Hactive] _ IH].
  - reflexivity.
  - simpl in Hip, Hactive. subst ip. cbn [serve map].
    rewrite (admission_banned _ _ _ _ Hb Hactive), IH. reflexivity.
Qed.

(** Three requests from ["X"], banned until 1000, at clock reading 500, on
    limiter stores that are empty. *)
Lemma banned_requests_short_circuit_witness :
  serve (burstOf "X" "/api/posts" 500 3) (mkWorld bannedX emptyLimiters)
  = ([ (Responded (SendFile 403 "../public/403.html"), []);
       (Responded (SendFile 403 "../public/403.html"), []);
       (Responded (SendFile 403 "../public/403.html"), []) ],
     mkWorld bannedX emptyLimiters).
Proof.
  apply (banned_requests_short_circuit (burstOf "X" "/api/posts" 500 3)
           (mkWorld bannedX emptyLimiters) "X" (mkBan 1000 1)).
  - reflexivity.
  - repeat constructor; simpl; lia.
Defined.

(** C6 (as the code has it). For a request that the ban check lets through,
    the burst tier is always evaluated; the sustained tier is evaluated only
    if the burst tier allowed; the API tier only if both allowed and the
    request is under the [/api/] mount.  Every evaluated tier updates its own
    store, and a tier that was not evaluated keeps its store: a rejection
    ends the chain. *)
Theorem tiers_stop_at_first_rejection req clk w :
  (isBanned (clientIp req) (tBanCheck clk) (bans w)).1 = false ->
  (admission req clk w).2 = tiersRun req clk w
  /\ (forall tier, tier ∈ tiersRun req clk w ->
        getStore tier (lims (admission req clk w).1.2)
        = (checkAndConsume tier (clientIp req) (tLimiter clk tier)
             (getStore tier (lims w))).2)
  /\ (forall tier, tier ∉ tiersRun req clk w ->
        getStore tier (lims (admission req clk w).1.2) = getStore tier (lims w)).
Proof.
  intros Hnb. rewrite (admission_not_banned _ _ _ Hnb).
  set (w1 := mkWorld _ (lims w)).
  unfold tiersRun. cbn [runChain].
  destruct (limiter_run Burst req clk w1) as (o1 & st1 & -> & Ho1).
  rewrite (tierAllows_store Burst req clk w w1 eq_refl) in Ho1.
  set (w2 := mkWorld st1 _).
  destruct (tierAllows Burst req clk w).
  2: { destruct Ho1 as [[r ->] _]. tier_stores. }
  destruct Ho1 as [-> _].
  destruct (limiter_run Sustained req clk w2) as (o2 & st2 & -> & Ho2).
  rewrite (tierAllows_store Sustained req clk w w2 eq_refl) in Ho2.
  set (w3 := mkWorld st2 _).
  destruct (tierAllows Sustained req clk w).
  2: { destruct Ho2 as [[r ->] _]. tier_stores. }
  destruct Ho2 as [-> _]. unfold mounted.
  destruct (req_underApiMount req).
  2: { tier_stores. }
  destruct (limiter_run Api req clk w3) as (o3 & st3 & -> & _).
  destruct o3; tier_stores.
Qed.

End Chain.

(** The first request of ["X"] on an empty world passes the burst and the
    sustained tier; being a page request it does not meet the API tier. *)
Lemma tiers_stop_at_first_rejection_witness :
  (admission (requestFor "X" "/index.html") (clockAt 0) emptyWorld).2
  = [Burst; Sustained].
Proof.
  pose proof (tiers_stop_at_first_rejection
                (requestFor "X" "/index.html") (clockAt 0) emptyWorld eq_refl)
    as [Hran _].
  vm_compute in Hran |- *. exact Hran.
Defined.

(** C6 (as stated) fails.  ["X"] has sent 50 page requests at clock reading
    0 and sends a 51st: the ban check lets it through, the burst tier rejects
    it, and the sustained tier is not evaluated: its count for ["X"] stays
    at 50. *)
Lemma burst_rejection_skips_sustained :
  (isBanned "X" 0 (bans afterFifty)).1 = false
  /\ (admission (requestFor "X" "/index.html") (clockAt 0) afterFifty).2 = [Burst]
  /\ (admission (requestFor "X" "/index.html") (clockAt 0) afterFifty).1.1
     = Responded (Redirect "/429.html?reset=1")
  /\ sustainedStore (lims afterFifty) !! "X" = Some (mkWindow 50 0)
  /\ sustainedStore
       (lims (admission (requestFor "X" "/index.html") (clockAt 0) afterFifty).1.2)
     !! "X"
     = Some (mkWindow 50 0).
Proof. vm_compute. repeat split; reflexivity. Qed.

(* ===================================================================== *)
(** * Properties of the rejection responses *)
(* ===================================================================== *)

Section Responses.

Implicit Types (req : Request) (hc : HandlerClock) (st : State).

Lemma rateLimitHandler_api req limitReset hc st :
  isApiRequest req = true ->
  (rateLimitHandler req limitReset hc st).1
  = Json 429 "Too many requests. Please try again later."
      (waitSecondsOf limitReset hc) (resetTimeOf limitReset hc).
Proof. unfold rateLimitHandler. intros ->. reflexivity. Qed.

Lemma rateLimitHandler_page req limitReset hc st :
  isApiRequest req = false ->
  (rateLimitHandler req limitReset hc st).1
  = Redirect ("/429.html?reset=" +:+ pretty (resetTimeOf limitReset hc)).
Proof. unfold rateLimitHandler. intros ->. reflexivity. Qed.

(** C7 (as the code has it). On an API request the handler answers 429 with
    [retryAfter] equal to the tier's reset instant minus the clock reading,
    in whole seconds rounded down.  There is no clamp at 0: [retryAfter] is
    non-negative exactly when the reset instant is not in the past. *)
Theorem retryAfter_rounds_down req limitReset hc st :
  isApiRequest req = true ->
  (rateLimitHandler req limitReset hc st).1
  = Json 429 "Too many requests. Please try again later."
      ((limitReset - tWait hc) / 1000) (resetTimeOf limitReset hc)
  /\ 1000 * ((limitReset - tWait hc) / 1000) <= limitReset - tWait hc
     < 1000 * ((limitReset - tWait hc) / 1000) + 1000
  /\ (0 <= (limitReset - tWait hc) / 1000 <-> tWait hc <= limitReset).
Proof.
  intros Hapi. split; [exact (rateLimitHandler_api _ _ _ _ Hapi)|].
  pose proof (Z.div_mod (limitReset - tWait hc) 1000 ltac:(lia)) as Hdm.
  pose proof (Z.mod_pos_bound (limitReset - tWait hc) 1000 ltac:(lia)) as Hm.
  split; [lia|]. split; intros H; [lia|].
  apply Z.div_pos; lia.
Qed.

(** An API request rejected with 2.5 s left on the tier's window. *)
Lemma retryAfter_rounds_down_witness :
  (rateLimitHandler (requestFor "X" "/api/posts") 4000 (handlerAt 1500) emptyState).1
  = Json 429 "Too many requests. Please try again later." 2 3.
Proof.
  exact (proj1 (retryAfter_rounds_down (requestFor "X" "/api/posts") 4000
                  (handlerAt 1500) emptyState eq_refl)).
Defined.

(** C7 (as stated) fails.  With the reset instant 1.5 s in the past the
    handler answers [retryAfter = -2]; and in the chain, when the clock moves
    from 999 to 1001 between the burst tier's rejection of the 51st request
    and the handler's reading, it answers [retryAfter = -1]. *)
Lemma retryAfter_negative :
  isApiRequest (requestFor "X" "/api/posts") = true
  /\ (rateLimitHandler (requestFor "X" "/api/posts") 1000 (handlerAt 2500)
        emptyState).1
     = Json 429 "Too many requests. Please try again later." (-2) 0
  /\ (admission (requestFor "X" "/api/posts") tickingClock afterFifty).1.1
     = Responded (Json 429 "Too many requests. Please try again later." (-1) 0).
Proof. vm_compute. repeat split; reflexivity. Qed.

(** The value sent as reset time, when the handler's clock readings agree,
    is the tier's reset instant in whole seconds or one second less. *)
Lemma resetTimeOf_bounds limitReset now :
  limitReset / 1000 - 1 <= resetTimeOf limitReset (handlerAt now)
  /\ resetTimeOf limitReset (handlerAt now) <= limitReset / 1000.
Proof.
  unfold resetTimeOf, handlerAt. cbn [tResetBase tResetDelta].
  pose proof (Z.div_mod now 1000 ltac:(lia)).
  pose proof (Z.mod_pos_bound now 1000 ltac:(lia)).
  pose proof (Z.div_mod (limitReset - now) 1000 ltac:(lia)).
  pose proof (Z.mod_pos_bound (limitReset - now) 1000 ltac:(lia)).
  pose proof (Z.div_mod limitReset 1000 ltac:(lia)).
  pose proof (Z.mod_pos_bound limitReset 1000 ltac:(lia)).
  lia.
Qed.

End Responses.

Section ResponseShapes.

Implicit Types (req : Request) (clk : Clock) (w : World) (tier : Tier).

(** The handler's reset time against the tier's reset instant in whole
    seconds, when the handler's clock readings agree: the two floors lose a
    second exactly when the millisecond parts of the current time and of the
    time left add up to a full second. *)
Lemma resetTimeOf_exact limitReset now :
  resetTimeOf limitReset (handlerAt now)
  = limitReset / 1000
    - (if now mod 1000 + (limitReset - now) mod 1000 <? 1000 then 0 else 1).
Proof.
  unfold resetTimeOf, handlerAt. cbn [tResetBase tResetDelta].
  pose proof (Z.div_mod now 1000 ltac:(lia)).
  pose proof (Z.mod_pos_bound now 1000 ltac:(lia)).
  pose proof (Z.div_mod (limitReset - now) 1000 ltac:(lia)).
  pose proof (Z.mod_pos_bound (limitReset - now) 1000 ltac:(lia)).
  pose proof (Z.div_mod limitReset 1000 ltac:(lia)).
  pose proof (Z.mod_pos_bound limitReset 1000 ltac:(lia)).
  destruct (Z.ltb_spec (now mod 1000 + (limitReset - now) mod 1000) 1000); lia.
Qed.

(** C8 (as the code has it). A banned request is answered with status 403
    and the static file [403.html], whatever its URL fields are.  A request
    that a tier rejects and that is not an API request is answered with a
    redirect to [/429.html?reset=N], where [N] is the current time in whole
    seconds plus the whole seconds left until the tier's reset instant, each
    rounded down on its own.  With one clock reading [now], [N] is the reset
    instant in unix seconds when the millisecond parts of [now] and of the
    time left add up to less than a second, and one second less otherwise. *)
Theorem rejection_response_shape :
  (forall req clk w ban,
     ipBans (bans w) !! clientIp req = Some ban ->
     tBanCheck clk <= bannedUntil ban ->
     (admission req clk w).1.1 = Responded (SendFile 403 "../public/403.html"))
  /\ (forall tier req clk w,
        isApiRequest req = false ->
        tierAllows tier req clk w = false ->
        exists resetAt,
          (checkAndConsume tier (clientIp req) (tLimiter clk tier)
             (getStore tier (lims w))).1 = Some resetAt
          /\ (limiter tier req clk w).1.1
             = Responded
                 (Redirect
                    ("/429.html?reset="
                     +:+ pretty (tResetBase (tHandler clk) / 1000
                                 + (resetAt - tResetDelta (tHandler clk)) / 1000))))
  /\ (forall limitReset now,
        resetTimeOf limitReset (handlerAt now)
        = limitReset / 1000
          - (if now mod 1000 + (limitReset - now) mod 1000 <? 1000 then 0 else 1)).
Proof.
  split; [| split].
  - intros req clk w ban Hb Hactive.
    rewrite (admission_banned _ _ _ _ Hb Hactive). reflexivity.
  - intros tier req clk w Hpage Hrej.
    destruct (limiter_rejected _ _ _ _ Hrej) as (resetAt & Hreset & Hrun).
    exists resetAt. split; [exact Hreset|].
    rewrite Hrun. cbn [fst]. rewrite (rateLimitHandler_page _ _ _ _ Hpage).
    reflexivity.
  - apply resetTimeOf_exact.
Qed.

(** ["X"], banned until 1000, asks for an API route and for a page at 500:
    both get the 403 file.  The 51st page request of ["X"] within the burst
    window opened at 0 is redirected to [/429.html?reset=1]: at clock reading
    0 nothing is lost to rounding. *)
Lemma rejection_response_shape_witness :
  (admission (requestFor "X" "/api/posts") (clockAt 500)
     (mkWorld bannedX emptyLimiters)).1.1
  = Responded (SendFile 403 "../public/403.html")
  /\ (admission (requestFor "X" "/index.html") (clockAt 500)
        (mkWorld bannedX emptyLimiters)).1.1
     = Responded (SendFile 403 "../public/403.html")
  /\ (exists resetAt,
        (checkAndConsume Burst "X" 0 (burstStore (lims afterFifty))).1 = Some resetAt
        /\ (limiter Burst (requestFor "X" "/index.html") (clockAt 0) afterFifty).1.1
           = Responded
               (Redirect ("/429.html?reset="
                          +:+ pretty (0 / 1000 + (resetAt - 0) / 1000)))).
Proof.
  destruct rejection_response_shape as (Hban & Hpage & _).
  split; [| split].
  - apply (Hban (requestFor "X" "/api/posts") (clockAt 500)
             (mkWorld bannedX emptyLimiters) (mkBan 1000 1)).
    + reflexivity.
    + simpl. lia.
  - apply (Hban (requestFor "X" "/index.html") (clockAt 500)
             (mkWorld bannedX emptyLimiters) (mkBan 1000 1)).
    + reflexivity.
    + simpl. lia.
  - apply (Hpage Burst (requestFor "X" "/index.html") (clockAt 0) afterFifty).
    + reflexivity.
    + vm_compute. reflexivity.
Defined.

(** C8 (as stated) fails.  The burst window of ["X"] was opened at 0, so its
    reset instant is 1000 ms, that is 1 in unix seconds.  The 51st page
    request, made at clock reading 50, is redirected to [/429.html?reset=0]:
    the parameter is not the reset time but one second less. *)
Lemma redirect_reset_one_second_early :
  isApiRequest (requestFor "X" "/index.html") = false
  /\ (checkAndConsume Burst "X" 50 (burstStore (lims afterFifty))).1 = Some 1000
  /\ 1000 / 1000 = 1
  /\ (admission (requestFor "X" "/index.html") (clockAt 50) afterFifty).1.1
     = Responded (Redirect "/429.html?reset=0")
  /\ (rateLimitHandler (requestFor "X" "/index.html") 1000 (handlerAt 50)
        emptyState).1
     = Redirect "/429.html?reset=0".
Proof. vm_compute. repeat split; reflexivity. Qed.

End ResponseShapes.

(* ===================================================================== *)
(** * The violation counter of a ban record *)
(* ===================================================================== *)

Section Escalation.

Implicit Types (req : Request) (clk : Clock) (w : World) (st : State).

(** What [recordViolation] attempts: when it bans an address whose record is
    still in the store, the new record counts one violation more. *)
Lemma recordViolation_counts_up (ip : string) now st ban :
  ipBans st !! ip = Some ban ->
  (5 <= length (keptLog ip now st))%nat ->
  ipBans (recordViolation ip now st) !! ip
  = Some (mkBan (now + 15 * 60 * 1000) (violations ban + 1)).
Proof.
  intros Hb Hlen. rewrite (recordViolation_reached _ _ _ Hlen). simpl.
  rewrite lookup_insert_eq. unfold existingViolations. rewrite Hb. reflexivity.
Qed.

Lemma isBanned_true (ip : string) now st :
  (isBanned ip now st).1 = true ->
  exists ban, ipBans st !! ip = Some ban /\ now <= bannedUntil ban.
Proof.
  unfold isBanned. destruct (ipBans st !! ip) as [ban|]; [|discriminate].
  destruct (Z.gtb_spec now (bannedUntil ban)); [discriminate|].
  intros _. exists ban. split; [reflexivity | lia].
Qed.

(** The ban state after one pass through the chain: what [isBanned] left,
    with at most one violation recorded on top, and that only for a request
    the ban check let through. *)
Lemma admission_bans req clk w :
  bans (admission req clk w).1.2
  = (isBanned (clientIp req) (tBanCheck clk) (bans w)).2
  \/ ((isBanned (clientIp req) (tBanCheck clk) (bans w)).1 = false
      /\ bans (admission req clk w).1.2
         = recordViolation (clientIp req) (tViolation (tHandler clk))
             (isBanned (clientIp req) (tBanCheck clk) (bans w)).2).
Proof.
  destruct ((isBanned (clientIp req) (tBanCheck clk) (bans w)).1) eqn:Hb.
  - left. destruct (isBanned_true _ _ _ Hb) as (ban & Hban & Hactive).
    rewrite (admission_banned _ _ _ _ Hban Hactive).
    rewrite (isBanned_active _ _ _ _ Hban Hactive). reflexivity.
  - rewrite (admission_not_banned _ _ _ Hb).
    set (st1 := (isBanned (clientIp req) (tBanCheck clk) (bans w)).2).
    set (w1 := mkWorld st1 (lims w)). cbn [runChain].
    destruct (limiter_run Burst req clk w1) as (o1 & s1 & -> & Ho1).
    destruct (tierAllows Burst req clk w1).
    2: { destruct Ho1 as [[r ->] ->]. right. split; reflexivity. }
    destruct Ho1 as [-> ->]. set (w2 := mkWorld (bans w1) _).
    destruct (limiter_run Sustained req clk w2) as (o2 & s2 & -> & Ho2).
    destruct (tierAllows Sustained req clk w2).
    2: { destruct Ho2 as [[r ->] ->]. right. split; reflexivity. }
    destruct Ho2 as [-> ->]. set (w3 := mkWorld (bans w2) _).
    unfold mounted. destruct (req_underApiMount req); [|left; reflexivity].
    destruct (limiter_run Api req clk w3) as (o3 & s3 & -> & Ho3).
    destruct (tierAllows Api req clk w3).
    + destruct Ho3 as [-> ->]. left. reflexivity.
    + destruct Ho3 as [[r ->] ->]. right. split; reflexivity.
Qed.

(** Served through the chain, no ban record ever counts more than one
    violation: [isBanned] has removed the expired record of an address before
    [recordViolation] can read it. *)
Lemma admission_counts_one req clk w :
  (forall ip ban, ipBans (bans w) !! ip = Some ban -> violations ban = 1) ->
  forall ip ban,
    ipBans (bans (admission req clk w).1.2) !! ip = Some ban -> violations ban = 1.
Proof.
  intros Hinv.
  pose proof (isBanned_post (clientIp req) (tBanCheck clk) (bans w)) as Hpost.
  set (st1 := (isBanned (clientIp req) (tBanCheck clk) (bans w)).2) in *.
  assert (Hinv1 : forall ip ban, ipBans st1 !! ip = Some ban -> violations ban = 1).
  { intros ip ban. subst st1. unfold isBanned.
    destruct (ipBans (bans w) !! clientIp req) as [b|]; [|apply Hinv].
    destruct (tBanCheck clk >? bannedUntil b); [|apply Hinv].
    simpl. intros Hl. apply lookup_delete_Some in Hl. apply (Hinv ip), Hl. }
  destruct (admission_bans req clk w) as [-> | [Hnb ->]]; [exact Hinv1|].
  fold st1. rewrite Hnb in Hpost.
  destruct (ipBans st1 !! clientIp req) as [b|] eqn:Hnone;
    [destruct Hpost; discriminate|].
  intros ip ban. unfold recordViolation.
  destruct (5 <=? length _)%nat; simpl; [|apply Hinv1].
  destruct (decide (clientIp req = ip)) as [<-|Hne].
  - rewrite lookup_insert_eq. unfold existingViolations. rewrite Hnone.
    intros [= <-]. reflexivity.
  - rewrite lookup_insert_ne by assumption. apply Hinv1.
Qed.

Lemma serve_counts_one (reqs : list (Request * Clock)) w :
  (forall ip ban, ipBans (bans w) !! ip = Some ban -> violations ban = 1) ->
  forall ip ban,
    ipBans (bans (serve reqs w).2) !! ip = Some ban -> violations ban = 1.
Proof.
  revert w. induction reqs as [|[req clk] reqs IH]; intros w Hinv.
  - exact Hinv.
  - cbn [serve].
    pose proof (admission_counts_one req clk w Hinv) as Hstep.
    destruct (admission req clk w) as [[o w'] ran]. simpl in Hstep.
    specialize (IH w' Hstep). destruct (serve reqs w') as [os w''].
    exact IH.
Qed.

(** C1 at a concrete run.  ["X"] is banned by its 55th request at clock
    reading 0, until 900000, with [violations = 1]; the ban runs out; the
    55th request of a second batch at 900001 bans ["X"] again, and the new
    record again has [violations = 1], not 2: the request that found the
    first ban expired had deleted its record. *)
Theorem second_ban_counts_one :
  ipBans (bans afterFirstBatch) !! "X" = Some (mkBan 900000 1)
  /\ (isBanned "X" 900001 (bans afterFirstBatch)).1 = false
  /\ ipBans (isBanned "X" 900001 (bans afterFirstBatch)).2 !! "X" = None
  /\ ipBans (bans afterSecondBatch) !! "X" = Some (mkBan 1800001 1).
Proof. vm_compute. repeat split; reflexivity. Qed.

End Escalation.

(* ===================================================================== *)
(** * Further properties of the ban store and the violation tracker *)
(* ===================================================================== *)

Section Isolation.

Implicit Types (ip : string) (now t : Z) (st : State).

Lemma isBanned_log ip now st : ipViolations (isBanned ip now st).2 = ipViolations st.
Proof.
  unfold isBanned. destruct (ipBans st !! ip) as [ban|]; [|reflexivity].
  destruct (now >? bannedUntil ban); reflexivity.
Qed.

Lemma isBanned_other ip ip' now st :
  ip <> ip' -> ipBans (isBanned ip now st).2 !! ip' = ipBans st !! ip'.
Proof.
  intros Hne. unfold isBanned. destruct (ipBans st !! ip) as [ban|]; [|reflexivity].
  destruct (now >? bannedUntil ban); [|reflexivity].
  simpl. apply lookup_delete_ne, Hne.
Qed.

Lemma recordViolation_other ip ip' now st :
  ip <> ip' ->
  ipBans (recordViolation ip now st) !! ip' = ipBans st !! ip'
  /\ ipViolations (recordViolation ip now st) !! ip' = ipViolations st !! ip'.
Proof.
  intros Hne. unfold recordViolation.
  destruct (5 <=? length _)%nat; simpl.
  - rewrite lookup_insert_ne by exact Hne.
    rewrite lookup_delete_ne by exact Hne.
    rewrite lookup_insert_ne by exact Hne. split; reflexivity.
  - rewrite lookup_insert_ne by exact Hne. split; reflexivity.
Qed.

(** X1. [isBanned ip] and [recordViolation ip] touch the entries of [ip]
    only: the ban record and the violation log of every other address are
    what they were, and [isBanned] leaves the whole violation map alone. *)
Theorem other_addresses_untouched ip ip' now st :
  ip <> ip' ->
  ipBans (isBanned ip now st).2 !! ip' = ipBans st !! ip'
  /\ ipViolations (isBanned ip now st).2 = ipViolations st
  /\ ipBans (recordViolation ip now st) !! ip' = ipBans st !! ip'
  /\ ipViolations (recordViolation ip now st) !! ip' = ipViolations st !! ip'.
Proof.
  intros Hne. split; [apply isBanned_other, Hne|].
  split; [apply isBanned_log|]. apply recordViolation_other, Hne.
Qed.

(** ["Y"] while ["X"], banned until 1000, is checked at 1001 and then
    records a violation. *)
Lemma other_addresses_untouched_witness :
  ipBans (isBanned "X" 1001 bannedX).2 !! "Y" = ipBans bannedX !! "Y"
  /\ ipViolations (isBanned "X" 1001 bannedX).2 = ipViolations bannedX
  /\ ipBans (recordViolation "X" 1001 bannedX) !! "Y" = ipBans bannedX !! "Y"
  /\ ipViolations (recordViolation "X" 1001 bannedX) !! "Y"
     = ipViolations bannedX !! "Y".
Proof.
  apply (other_addresses_untouched "X" "Y" 1001 bannedX). discriminate.
Defined.

End Isolation.

Section Counting.

Implicit Types (ip : string) (now t : Z) (st : State) (times : list Z).

Lemma keptLog_length ip now st :
  (length (keptLog ip now st) <= length (logOf ip st) + 1)%nat.
Proof.
  unfold keptLog, logOf. rewrite append_then_filter, length_app. simpl.
  pose proof (List.filter_length_le (isRecent now) (default [] (ipViolations st !! ip))).
  lia.
Qed.

Lemma logOf_below ip now st :
  (length (keptLog ip now st) < 5)%nat ->
  logOf ip (recordViolation ip now st) = keptLog ip now st.
Proof.
  intros Hlt. rewrite (recordViolation_below _ _ _ Hlt). unfold logOf. simpl.
  rewrite lookup_insert_eq. reflexivity.
Qed.

Lemma logOf_reached ip now st :
  (5 <= length (keptLog ip now st))%nat ->
  logOf ip (recordViolation ip now st) = [].
Proof.
  intros Hge. rewrite (recordViolation_reached _ _ _ Hge). unfold logOf. simpl.
  rewrite lookup_delete_eq. reflexivity.
Qed.

(** One call: the counter of [ip] does not go down, and five times its
    increase plus the length of the new log is at most the old length plus
    one. *)
Lemma recordViolation_potential ip now st :
  existingViolations ip st <= existingViolations ip (recordViolation ip now st)
  /\ 5 * (existingViolations ip (recordViolation ip now st)
          - existingViolations ip st)
     + Z.of_nat (length (logOf ip (recordViolation ip now st)))
     <= Z.of_nat (length (logOf ip st)) + 1.
Proof.
  pose proof (keptLog_length ip now st) as Hlen.
  destruct (Nat.le_gt_cases 5 (length (keptLog ip now st))) as [Hge|Hlt].
  - rewrite (logOf_reached _ _ _ Hge).
    rewrite (recordViolation_reached _ _ _ Hge).
    unfold existingViolations at 2 4. simpl. rewrite lookup_insert_eq. simpl. lia.
  - rewrite (logOf_below _ _ _ Hlt).
    rewrite (recordViolation_below _ _ _ Hlt).
    unfold existingViolations. simpl. lia.
Qed.

(** X2. Over any sequence of violations of [ip], recorded at any times and
    from any state, the violation counter of [ip]'s ban record never goes
    down, and bans are paid for: five times the number of bans made, plus
    the entries left in the log, is at most the entries the log started with
    plus the number of violations recorded.  So [n] violations on an empty
    log make at most [n / 5] bans. *)
Theorem one_ban_per_five_violations ip times st :
  existingViolations ip st <= existingViolations ip (recordViolations ip times st)
  /\ 5 * (existingViolations ip (recordViolations ip times st)
          - existingViolations ip st)
     + Z.of_nat (length (logOf ip (recordViolations ip times st)))
     <= Z.of_nat (length (logOf ip st)) + Z.of_nat (length times).
Proof.
  revert st. induction times as [|t times IH]; intros st.
  - simpl. lia.
  - change (recordViolations ip (t :: times) st)
      with (recordViolations ip times (recordViolation ip t st)).
    specialize (IH (recordViolation ip t st)).
    pose proof (recordViolation_potential ip t st).
    simpl length. lia.
Qed.

Lemma few_violations_keep_bans ip times st :
  (length (logOf ip st) + length times < 5)%nat ->
  ipBans (recordViolations ip times st) = ipBans st.
Proof.
  revert st. induction times as [|t times IH]; intros st Hfew.
  - reflexivity.
  - change (recordViolations ip (t :: times) st)
      with (recordViolations ip times (recordViolation ip t st)).
    simpl in Hfew. pose proof (keptLog_length ip t st) as Hlen.
    assert (Hlt : (length (keptLog ip t st) < 5)%nat) by lia.
    rewrite IH.
    + rewrite (recordViolation_below _ _ _ Hlt). reflexivity.
    + rewrite (logOf_below _ _ _ Hlt). lia.
Qed.

(** X3. Fewer than five violations never ban: if the entries already in the
    log of [ip] and the violations recorded are fewer than five together,
    the ban store is unchanged, however the violations are timed. *)
Theorem fewer_than_five_never_bans ip times st :
  (length (logOf ip st) + length times < 5)%nat ->
  ipBans (recordViolations ip times st) = ipBans st.
Proof. apply few_violations_keep_bans. Qed.

(** Four violations of ["X"] at one instant, on no log. *)
Lemma fewer_than_five_never_bans_witness :
  ipBans (recordViolations "X" [7; 7; 7; 7] emptyState) = ∅.
Proof.
  apply (fewer_than_five_never_bans "X" [7; 7; 7; 7] emptyState).
  vm_compute. lia.
Defined.

Lemma last_cons (l : list Z) (a d : Z) : List.last (a :: l) d = List.last l a.
Proof.
  revert a d. induction l as [|b l IH]; intros a d; [reflexivity|].
  change (List.last (a :: b :: l) d) with (List.last (b :: l) d).
  rewrite (IH b d), (IH b a). reflexivity.
Qed.

Lemma recordViolations_spaced ip prev times B V :
  V !! ip = Some [prev] ->
  spacedFrom prev times ->
  recordViolations ip times (mkState B V)
  = mkState B (<[ip := [List.last times prev]]> V).
Proof.
  revert prev V. induction times as [|t times IH]; intros prev V Hlog Hsp.
  - simpl. rewrite insert_id by exact Hlog. reflexivity.
  - destruct Hsp as [Hgap Hsp].
    change (recordViolations ip (t :: times) (mkState B V))
      with (recordViolations ip times (recordViolation ip t (mkState B V))).
    rewrite (recordViolation_restart ip t B V [prev]);
      [| rewrite Hlog; reflexivity | repeat constructor; lia].
    rewrite (IH t (<[ip := [t]]> V)); [| apply lookup_insert_eq | exact Hsp].
    rewrite insert_insert_eq, last_cons. reflexivity.
Qed.

(** X4. Violations that are each at least five minutes after the one before
    never ban, however many there are: starting without a log, the ban store
    is unchanged and the log holds the last timestamp only. *)
Theorem spaced_violations_never_ban ip t times st :
  ipViolations st !! ip = None ->
  spacedFrom t times ->
  recordViolations ip (t :: times) st
  = mkState (ipBans st) (<[ip := [List.last times t]]> (ipViolations st)).
Proof.
  destruct st as [B V]. cbn [ipViolations ipBans]. intros Hnone Hsp.
  change (recordViolations ip (t :: times) (mkState B V))
    with (recordViolations ip times (recordViolation ip t (mkState B V))).
  rewrite (recordViolation_push ip t B V []);
    [| rewrite Hnone; reflexivity | constructor | simpl; lia].
  rewrite (recordViolations_spaced ip t times B _);
    [| apply lookup_insert_eq | exact Hsp].
  rewrite insert_insert_eq. reflexivity.
Qed.

(** Seven violations of ["X"], one every five minutes. *)
Lemma spaced_violations_never_ban_witness :
  recordViolations "X"
    [0; 300000; 600000; 900000; 1200000; 1500000; 1800000] emptyState
  = mkState ∅ (<["X" := [1800000]]> ∅).
Proof.
  apply (spaced_violations_never_ban "X" 0
           [300000; 600000; 900000; 1200000; 1500000; 1800000] emptyState).
  - reflexivity.
  - simpl. lia.
Defined.

(** X5. A ban written by [recordViolation] at [now] holds for exactly 15
    minutes: [isBanned] answers true, and changes nothing, at every clock
    reading up to and including [now + 15 min], and at any later reading it
    answers false and removes the record. *)
Theorem new_ban_lasts_fifteen_minutes ip now st :
  (5 <= length (keptLog ip now st))%nat ->
  (forall t, t <= now + 15 * 60 * 1000 ->
     isBanned ip t (recordViolation ip now st) = (true, recordViolation ip now st))
  /\ (forall t, now + 15 * 60 * 1000 < t ->
        (isBanned ip t (recordViolation ip now st)).1 = false
        /\ ipBans (isBanned ip t (recordViolation ip now st)).2 !! ip = None).
Proof.
  intros Hge.
  assert (Hban : ipBans (recordViolation ip now st) !! ip
                 = Some (mkBan (now + 15 * 60 * 1000) (existingViolations ip st + 1))).
  { rewrite (recordViolation_reached _ _ _ Hge). simpl. apply lookup_insert_eq. }
  split.
  - intros t Ht. apply (isBanned_active _ _ _ _ Hban). simpl. exact Ht.
  - intros t Ht.
    rewrite (isBanned_expired _ _ _ _ Hban) by (simpl; lia).
    simpl. split; [reflexivity | apply lookup_delete_eq].
Qed.

(** The fifth violation of ["X"] at 50: banned at 900050, free at 900051. *)
Lemma new_ban_lasts_fifteen_minutes_witness :
  isBanned "X" 900050 (recordViolation "X" 50 fourStrikes)
  = (true, recordViolation "X" 50 fourStrikes)
  /\ (isBanned "X" 900051 (recordViolation "X" 50 fourStrikes)).1 = false
  /\ ipBans (isBanned "X" 900051 (recordViolation "X" 50 fourStrikes)).2 !! "X"
     = None.
Proof.
  assert (Hge : (5 <= length (keptLog "X" 50 fourStrikes))%nat)
    by (vm_compute; lia).
  destruct (new_ban_lasts_fifteen_minutes "X" 50 fourStrikes Hge) as [Hin Hout].
  split; [apply Hin; lia | apply Hout; lia].
Defined.

End Counting.

(* ===================================================================== *)
(** * Further properties of the middleware chain *)
(* ===================================================================== *)

Section ChainAccounting.

Implicit Types (req : Request) (clk : Clock) (w : World) (tier : Tier).

(** A limiter either calls [next()] on the ban state it found, or answers
    with the handler's response after the handler has recorded a violation. *)
Lemma limiter_cases tier req clk w :
  (exists l, limiter tier req clk w = (Next, mkWorld (bans w) l, [tier]))
  \/ (exists resetAt l,
        limiter tier req clk w
        = (Responded (rateLimitHandler req resetAt (tHandler clk) (bans w)).1,
           mkWorld (recordViolation (clientIp req) (tViolation (tHandler clk))
                      (bans w)) l,
           [tier])).
Proof.
  destruct (tierAllows tier req clk w) eqn:E.
  - left. eexists. apply limiter_allowed, E.
  - right. destruct (limiter_rejected _ _ _ _ E) as (resetAt & _ & Hrun).
    exists resetAt. eexists. rewrite Hrun, rateLimitHandler_state. reflexivity.
Qed.

(** The three ways a request leaves the chain. *)
Lemma admission_cases req clk w :
  ((isBanned (clientIp req) (tBanCheck clk) (bans w)).1 = true
   /\ admission req clk w = (Responded (SendFile 403 "../public/403.html"), w, []))
  \/ ((isBanned (clientIp req) (tBanCheck clk) (bans w)).1 = false
      /\ (admission req clk w).1.1 = Next
      /\ bans (admission req clk w).1.2
         = (isBanned (clientIp req) (tBanCheck clk) (bans w)).2)
  \/ ((isBanned (clientIp req) (tBanCheck clk) (bans w)).1 = false
      /\ (exists resetAt st0,
            (admission req clk w).1.1
            = Responded (rateLimitHandler req resetAt (tHandler clk) st0).1)
      /\ bans (admission req clk w).1.2
         = recordViolation (clientIp req) (tViolation (tHandler clk))
             (isBanned (clientIp req) (tBanCheck clk) (bans w)).2).
Proof.
  destruct ((isBanned (clientIp req) (tBanCheck clk) (bans w)).1) eqn:Hb.
  - left. split; [reflexivity|].
    destruct (isBanned_true _ _ _ Hb) as (ban & Hban & Hactive).
    exact (admission_banned _ _ _ _ Hban Hactive).
  - right. rewrite (admission_not_banned _ _ _ Hb).
    set (st1 := (isBanned (clientIp req) (tBanCheck clk) (bans w)).2).
    set (w1 := mkWorld st1 (lims w)). cbn [runChain].
    destruct (limiter_cases Burst req clk w1) as [[l1 ->] | (r1 & l1 & ->)].
    2: { right. split; [reflexivity|]. split; [eexists _, _; reflexivity | reflexivity]. }
    destruct (limiter_cases Sustained req clk (mkWorld (bans w1) l1))
      as [[l2 ->] | (r2 & l2 & ->)].
    2: { right. split; [reflexivity|]. split; [eexists _, _; reflexivity | reflexivity]. }
    unfold mounted. cbn [bans].
    destruct (req_underApiMount req).
    2: { left. split; [reflexivity|]. split; reflexivity. }
    destruct (limiter_cases Api req clk (mkWorld (bans w1) l2))
      as [[l3 ->] | (r3 & l3 & ->)].
    + left. split; [reflexivity|]. split; reflexivity.
    + right. split; [reflexivity|]. split; [eexists _, _; reflexivity | reflexivity].
Qed.

(** X6. The chain answers in one of four ways, and violations follow the
    answer.  A request that is passed on ([Next]) records no violation; the
    403 file is sent with nothing changed at all; a 429 JSON answer goes to
    API requests only and a redirect to the others, and each of these two
    records exactly one violation of the requester, on the ban state that
    [isBanned] left.  No other response is ever sent. *)
Theorem violations_follow_rejections req clk w :
  match (admission req clk w).1.1 with
  | Next =>
      bans (admission req clk w).1.2
      = (isBanned (clientIp req) (tBanCheck clk) (bans w)).2
  | Responded (SendFile status file) =>
      status = 403 /\ file = "../public/403.html"
      /\ (admission req clk w).1.2 = w
  | Responded (Json status _ _ _) =>
      status = 429 /\ isApiRequest req = true
      /\ bans (admission req clk w).1.2
         = recordViolation (clientIp req) (tViolation (tHandler clk))
             (isBanned (clientIp req) (tBanCheck clk) (bans w)).2
  | Responded (Redirect _) =>
      isApiRequest req = false
      /\ bans (admission req clk w).1.2
         = recordViolation (clientIp req) (tViolation (tHandler clk))
             (isBanned (clientIp req) (tBanCheck clk) (bans w)).2
  end.
Proof.
  destruct (admission_cases req clk w)
    as [[_ ->] | [(_ & -> & Hst) | (_ & (resetAt & st0 & ->) & Hst)]].
  - repeat split; reflexivity.
  - exact Hst.
  - unfold rateLimitHandler.
    destruct (isApiRequest req); cbn [fst]; repeat split; exact Hst.
Qed.

(** X7. The request whose violation reaches the threshold is itself still
    answered by the limiter; the ban applies from the next request: any
    request from the same address whose ban check reads the clock no later
    than 15 minutes after that violation gets the 403 file, and changes
    nothing. *)
Theorem ban_applies_from_next_request req clk w req' clk' r :
  (isBanned (clientIp req) (tBanCheck clk) (bans w)).1 = false ->
  (admission req clk w).1.1 = Responded r ->
  (5 <= length (keptLog (clientIp req) (tViolation (tHandler clk))
                  (isBanned (clientIp req) (tBanCheck clk) (bans w)).2))%nat ->
  clientIp req' = clientIp req ->
  tBanCheck clk' <= tViolation (tHandler clk) + 15 * 60 * 1000 ->
  r <> SendFile 403 "../public/403.html"
  /\ admission req' clk' (admission req clk w).1.2
     = (Responded (SendFile 403 "../public/403.html"),
        (admission req clk w).1.2, []).
Proof.
  intros Hnb Hresp Hge Hip Hsoon.
  destruct (admission_cases req clk w)
    as [[Hb _] | [(_ & Hnext & _) | (_ & (resetAt & st0 & Hout) & Hst)]].
  - rewrite Hb in Hnb. discriminate.
  - rewrite Hnext in Hresp. discriminate.
  - split.
    + rewrite Hout in Hresp. injection Hresp as <-.
      unfold rateLimitHandler. destruct (isApiRequest req); discriminate.
    + eapply admission_banned.
      * rewrite Hst, Hip, (recordViolation_reached _ _ _ Hge). simpl.
        apply lookup_insert_eq.
      * simpl. exact Hsoon.
Qed.

(** ["X"], with four violations on record and its burst window used up, is
    redirected at 50, and gets the 403 file at 900050. *)
Lemma ban_applies_from_next_request_witness :
  Redirect "/429.html?reset=0" <> SendFile 403 "../public/403.html"
  /\ admission (requestFor "X" "/api/posts") (clockAt 900050)
       (admission (requestFor "X" "/index.html") (clockAt 50) aboutToBan).1.2
     = (Responded (SendFile 403 "../public/403.html"),
        (admission (requestFor "X" "/index.html") (clockAt 50) aboutToBan).1.2,
        []).
Proof.
  apply (ban_applies_from_next_request
           (requestFor "X" "/index.html") (clockAt 50) aboutToBan
           (requestFor "X" "/api/posts") (clockAt 900050)
           (Redirect "/429.html?reset=0")).
  - reflexivity.
  - vm_compute. reflexivity.
  - vm_compute. lia.
  - reflexivity.
  - simpl. lia.
Defined.

(** X8. A request changes the ban record and the violation log of its own
    address only: for every other address both are, after the pass through
    the chain, what they were before. *)
Theorem request_touches_own_address_only req clk w (ip' : string) :
  clientIp req <> ip' ->
  ipBans (bans (admission req clk w).1.2) !! ip' = ipBans (bans w) !! ip'
  /\ ipViolations (bans (admission req clk w).1.2) !! ip'
     = ipViolations (bans w) !! ip'.
Proof.
  intros Hne.
  destruct (admission_bans req clk w) as [-> | [_ ->]].
  - rewrite (isBanned_other _ _ _ _ Hne), isBanned_log. split; reflexivity.
  - destruct (recordViolation_other (clientIp req) ip' (tViolation (tHandler clk))
                (isBanned (clientIp req) (tBanCheck clk) (bans w)).2 Hne)
      as [-> ->].
    rewrite (isBanned_other _ _ _ _ Hne), isBanned_log. split; reflexivity.
Qed.

(** The request of ["Y"] at 50, which is passed on, leaves the four
    violations of ["X"] where they were. *)
Lemma request_touches_own_address_only_witness :
  ipBans (bans (admission (requestFor "Y" "/index.html") (clockAt 50)
                  aboutToBan).1.2) !! "X"
  = ipBans (bans aboutToBan) !! "X"
  /\ ipViolations (bans (admission (requestFor "Y" "/index.html") (clockAt 50)
                           aboutToBan).1.2) !! "X"
     = ipViolations (bans aboutToBan) !! "X".
Proof.
  apply (request_touches_own_address_only
           (requestFor "Y" "/index.html") (clockAt 50) aboutToBan "X").
  vm_compute. discriminate.
Defined.

End ChainAccounting.

(* ===================================================================== *)
(** * Properties of the request logger's bot counter *)
(* ===================================================================== *)

Section Logger.

Implicit Types (s word suffix path : string) (n : Z) (r : LoggedRequest).

Lemma prefix_append word s : String.prefix word (word +:+ s) = true.
Proof.
  induction word as [|c word IH].
  - change (String.prefix EmptyString s = true). destruct s; reflexivity.
  - change (String.prefix (String c word) (String c (word +:+ s)) = true).
    cbn [String.prefix]. destruct (Ascii.ascii_dec c c); [exact IH | contradiction].
Qed.

Lemma contains_prefix word s : String.prefix word s = true -> contains word s = true.
Proof. destruct s; cbn [contains]; intros ->; reflexivity. Qed.

Lemma endsWith_refl s : endsWith s s = true.
Proof. destruct s; cbn [endsWith]; rewrite String.eqb_refl; reflexivity. Qed.

Lemma prefix_split word s :
  String.prefix word s = true -> exists rest, s = word +:+ rest.
Proof.
  revert s. induction word as [|c word IH]; intros s H.
  - exists s. reflexivity.
  - destruct s as [|d s]; simpl in H; [discriminate|].
    destruct (Ascii.ascii_dec c d) as [<-|]; [|discriminate].
    destruct (IH s H) as [rest ->]. exists rest. reflexivity.
Qed.

Lemma contains_here word before after :
  contains word (before +:+ word +:+ after) = true.
Proof.
  induction before as [|c before IH].
  - change (EmptyString +:+ word +:+ after) with (word +:+ after).
    apply contains_prefix, prefix_append.
  - change (String c before +:+ word +:+ after)
      with (String c (before +:+ word +:+ after)).
    cbn [contains]. rewrite IH. apply orb_true_r.
Qed.

Lemma contains_split word s :
  contains word s = true -> exists before after, s = before +:+ word +:+ after.
Proof.
  induction s as [|c s IH]; cbn [contains]; intros H;
    apply orb_true_iff in H as [H|H].
  - destruct (prefix_split _ _ H) as [rest ->]. exists EmptyString, rest.
    reflexivity.
  - discriminate.
  - destruct (prefix_split _ _ H) as [rest ->]. exists EmptyString, rest.
    reflexivity.
  - destruct (IH H) as (before & after & ->).
    exists (String c before), after. reflexivity.
Qed.

Lemma endsWith_here suffix before : endsWith suffix (before +:+ suffix) = true.
Proof.
  induction before as [|c before IH].
  - change (EmptyString +:+ suffix) with suffix. apply endsWith_refl.
  - change (String c before +:+ suffix) with (String c (before +:+ suffix)).
    cbn [endsWith]. rewrite IH. apply orb_true_r.
Qed.

Lemma endsWith_split suffix s :
  endsWith suffix s = true -> exists before, s = before +:+ suffix.
Proof.
  induction s as [|c s IH]; cbn [endsWith]; intros H;
    apply orb_true_iff in H as [H|H].
  - apply String.eqb_eq in H. subst. exists EmptyString. reflexivity.
  - discriminate.
  - apply String.eqb_eq in H. subst. exists EmptyString. reflexivity.
  - destruct (IH H) as [before ->]. exists (String c before). reflexivity.
Qed.

Lemma lower_append s1 s2 : lower (s1 +:+ s2) = lower s1 +:+ lower s2.
Proof. induction s1 as [|c s1 IH]; simpl; [|rewrite IH]; reflexivity. Qed.

Lemma wordTest_spec (words : list string) s :
  existsb (fun word => contains word (lower s)) words = true
  <-> exists word before after,
        In word words /\ lower s = before +:+ word +:+ after.
Proof.
  rewrite existsb_exists. split.
  - intros (word & Hin & Hc). destruct (contains_split _ _ Hc) as (b & a & E).
    exists word, b, a. split; assumption.
  - intros (word & b & a & Hin & E). exists word. split; [exact Hin|].
    rewrite E. apply contains_here.
Qed.

(** X10. The two word tests of the logger match anywhere and in any letter
    case.  A user agent is taken for a bot exactly when, lower-cased, it
    contains one of the eight bot words; a path is taken for a scanner probe
    exactly when, lower-cased, it contains one of the ten scanner words.  So
    a word written in any mix of cases, with anything before and after it,
    is caught. *)
Theorem word_tests_match_anywhere :
  (forall ua,
     isBot ua = true
     <-> exists word before after,
           In word botWords /\ lower ua = before +:+ word +:+ after)
  /\ (forall path,
        isScannerPath path = true
        <-> exists word before after,
              In word scannerWords /\ lower path = before +:+ word +:+ after)
  /\ (forall before spelled after,
        In (lower spelled) botWords ->
        isBot (before +:+ spelled +:+ after) = true)
  /\ (forall before spelled after,
        In (lower spelled) scannerWords ->
        isScannerPath (before +:+ spelled +:+ after) = true).
Proof.
  split; [intros ua; apply wordTest_spec|].
  split; [intros path; apply wordTest_spec|].
  split; intros before spelled after Hin.
  - apply (wordTest_spec botWords). exists (lower spelled), (lower before), (lower after).
    split; [exact Hin|]. rewrite !lower_append. reflexivity.
  - apply (wordTest_spec scannerWords).
    exists (lower spelled), (lower before), (lower after).
    split; [exact Hin|]. rewrite !lower_append. reflexivity.
Qed.

(** A crawler's user agent with [BOT] in capitals, and a probe for
    [/.Git/config]. *)
Lemma word_tests_match_anywhere_witness :
  isBot ("Mozilla/5.0 (compatible; Google" +:+ "BOT" +:+ "/2.1)") = true
  /\ isScannerPath ("/" +:+ ".Git" +:+ "/config") = true.
Proof.
  destruct word_tests_match_anywhere as (_ & _ & Hbot & Hscan).
  split.
  - apply Hbot. vm_compute. left. reflexivity.
  - apply Hscan. vm_compute. do 4 right. left. reflexivity.
Defined.

Lemma logRequest_skipped r n :
  isStaticAsset (lr_path r) = true \/ isHealthCheck (lr_path r) = true ->
  logRequest r n = n.
Proof.
  unfold logRequest. intros [-> | ->]; simpl; [reflexivity|].
  rewrite andb_false_r. reflexivity.
Qed.

Lemma isStaticAsset_suffix before ext :
  In ext staticExtensions -> isStaticAsset (before +:+ "." +:+ ext) = true.
Proof.
  intros Hin. unfold isStaticAsset. apply existsb_exists.
  exists ext. split; [exact Hin | apply endsWith_here].
Qed.

(** X11. What the bot counter never counts: a request whose path ends in a
    dot and one of the ten static extensions, a request for [/health] or
    [/api/health], whatever user agent they carry and whatever else the path
    contains; and a request without a user agent (or with an empty one)
    whose path is no scanner probe. *)
Theorem never_counted :
  (forall before ext ua n,
     In ext staticExtensions ->
     logRequest (mkLogged (before +:+ "." +:+ ext) ua) n = n)
  /\ (forall ua n,
        logRequest (mkLogged "/health" ua) n = n
        /\ logRequest (mkLogged "/api/health" ua) n = n)
  /\ (forall path n,
        isScannerPath path = false ->
        logRequest (mkLogged path None) n = n
        /\ logRequest (mkLogged path (Some EmptyString)) n = n).
Proof.
  split; [| split].
  - intros before ext ua n Hin. apply logRequest_skipped. left.
    apply isStaticAsset_suffix, Hin.
  - intros ua n. split; apply logRequest_skipped; right; reflexivity.
  - intros path n Hscan. unfold logRequest, userAgentOf. simpl.
    rewrite Hscan.
    change (isBot "Unknown") with false.
    split; destruct (negb _ && negb _); reflexivity.
Qed.

(** A scanner's probe for a stylesheet under [/wp-admin/], sent with [curl];
    and a page request without a user agent. *)
Lemma never_counted_witness :
  logRequest (mkLogged ("/wp-admin/css/install" +:+ "." +:+ "css") (Some "curl/8.0")) 7
  = 7
  /\ logRequest (mkLogged "/index.html" None) 7 = 7.
Proof.
  destruct never_counted as (Hstatic & _ & Hnoagent).
  split.
  - apply Hstatic. vm_compute. left. reflexivity.
  - apply (Hnoagent "/index.html" 7). reflexivity.
Defined.

Lemma logRequest_step r n : n <= logRequest r n /\ logRequest r n <= n + 1.
Proof.
  unfold logRequest.
  destruct (negb _ && negb _); [destruct (isBot _ || isScannerPath _)|]; lia.
Qed.

(** X12. The bot counter never goes down and goes up by at most one per
    request: after any sequence of requests it lies between its old value
    and its old value plus the number of requests. *)
Theorem bot_counter_bounds (rs : list LoggedRequest) n :
  n <= logRequests rs n /\ logRequests rs n <= n + Z.of_nat (length rs).
Proof.
  revert n. induction rs as [|r rs IH]; intros n.
  - simpl. lia.
  - change (logRequests (r :: rs) n) with (logRequests rs (logRequest r n)).
    specialize (IH (logRequest r n)). pose proof (logRequest_step r n).
    simpl length. lia.
Qed.

End Logger.

(* ===================================================================== *)
(** * Properties of the ban log line and of the moderation page *)
(* ===================================================================== *)

Section LogLineAndModeration.

(** X13. The minutes reported for a banned request are the time left on the
    ban, rounded up to whole minutes: at least 0 while the ban is active,
    at least 1 exactly while the clock is strictly before [bannedUntil]
    (so 0 is reported only at the very last instant), and at most 15 for a
    ban set no more than 15 minutes ahead. *)
Theorem minutesLeft_bounds (ban : BanRecord) (now : Z) :
  (60000 * (minutesLeft ban now - 1) < bannedUntil ban - now
   /\ bannedUntil ban - now <= 60000 * minutesLeft ban now)
  /\ (now <= bannedUntil ban -> 0 <= minutesLeft ban now)
  /\ (now < bannedUntil ban <-> 1 <= minutesLeft ban now)
  /\ (bannedUntil ban <= now + 15 * 60 * 1000 -> minutesLeft ban now <= 15).
Proof.
  unfold minutesLeft, ceilDiv.
  pose proof (Z.div_mod (- (bannedUntil ban - now)) 60000 ltac:(lia)) as Hdm.
  pose proof (Z.mod_pos_bound (- (bannedUntil ban - now)) 60000 ltac:(lia)) as Hm.
  repeat split; intros; lia.
Qed.

(** A ban until 900000 seen at 1: fifteen minutes (rounded up); at 899999:
    one minute; at 900000: none. *)
Lemma minutesLeft_bounds_witness :
  0 <= minutesLeft (mkBan 900000 1) 1
  /\ 1 <= minutesLeft (mkBan 900000 1) 899999
  /\ minutesLeft (mkBan 900000 1) 1 <= 15
  /\ minutesLeft (mkBan 900000 1) 900000 = 0.
Proof.
  destruct (minutesLeft_bounds (mkBan 900000 1) 1) as (_ & Hpos & _ & Hmax).
  destruct (minutesLeft_bounds (mkBan 900000 1) 899999) as (_ & _ & Hone & _).
  split; [apply Hpos; simpl; lia|].
  split; [apply Hone; simpl; lia|].
  split; [apply Hmax; simpl; lia | reflexivity].
Defined.

(** X14. The moderation page fails closed.  The route answers with the page
    or with a redirect to [/403.html], nothing else; and it sends the page
    only when the session has a user id, the query for that id succeeded,
    returned a row, and the first row is an admin's.  Without a session, on a
    database error, on an unknown id and for a non-admin it redirects. *)
Theorem moderation_page_admins_only (userId : option Z) (query : Z -> QueryResult) :
  (moderationPage userId query = SendFile 200 "../public/moderation.html"
   \/ moderationPage userId query = Redirect "/403.html")
  /\ (moderationPage userId query = SendFile 200 "../public/moderation.html"
      <-> exists id row rows,
            userId = Some id /\ id <> 0
            /\ query id = QueryRows (row :: rows) /\ is_admin row = true).
Proof.
  unfold moderationPage.
  destruct userId as [id|].
  2: { split; [right; reflexivity|]. split; [discriminate|].
       intros (id & row & rows & H & _). discriminate. }
  destruct (Z.eqb_spec id 0) as [Hz|Hnz].
  { split; [right; reflexivity|]. split; [discriminate|].
    intros (id' & row & rows & [= <-] & Hne & _). contradiction. }
  destruct (query id) as [|[|row rows]] eqn:Hq.
  - split; [right; reflexivity|]. split; [discriminate|].
    intros (id' & row & rows & [= <-] & _ & Hq' & _). congruence.
  - split; [right; reflexivity|]. split; [discriminate|].
    intros (id' & row & rows & [= <-] & _ & Hq' & _). congruence.
  - destruct (is_admin row) eqn:Hadmin.
    + split; [left; reflexivity|]. split; [|reflexivity].
      intros _. exists id, row, rows. repeat split; assumption.
    + split; [right; reflexivity|]. split; [discriminate|].
      intros (id' & row' & rows' & [= <-] & _ & Hq' & Ha).
      rewrite Hq in Hq'. injection Hq' as <- <-. congruence.
Qed.

(** The admin with id 1, and a failing database. *)
Lemma moderation_page_admins_only_witness :
  moderationPage (Some 1) (fun _ => QueryRows [mkUserRow true])
  = SendFile 200 "../public/moderation.html"
  /\ moderationPage (Some 1) (fun _ => QueryFailed) = Redirect "/403.html".
Proof.
  split.
  - apply (proj2 (moderation_page_admins_only (Some 1)
                    (fun _ => QueryRows [mkUserRow true]))).
    exists 1, (mkUserRow true), []. repeat split. discriminate.
  - reflexivity.
Defined.

End LogLineAndModeration.

(* ===================================================================== *)
(** * The sliding window *)
(* ===================================================================== *)

Section SlidingWindow.

Implicit Types (ip : string) (now t : Z) (st : State) (log : list Z).

Lemma filter_sublist (f : Z -> bool) log : List.filter f log `sublist_of` log.
Proof.
  induction log as [|t log IH]; simpl; [constructor|].
  destruct (f t); [apply sublist_skip | apply sublist_cons]; exact IH.
Qed.

Lemma filter_sublist_mono (f : Z -> bool) log1 log2 :
  log1 `sublist_of` log2 -> List.filter f log1 `sublist_of` List.filter f log2.
Proof.
  induction 1 as [|t l1 l2 _ IH|t l1 l2 _ IH]; simpl.
  - constructor.
  - destruct (f t); [apply sublist_skip|]; exact IH.
  - destruct (f t); [apply sublist_cons|]; exact IH.
Qed.

Lemma logOf_recordViolation_sublist ip now st :
  logOf ip (recordViolation ip now st) `sublist_of` logOf ip st ++ [now].
Proof.
  destruct (Nat.le_gt_cases 5 (length (keptLog ip now st))) as [Hge|Hlt].
  - rewrite (logOf_reached _ _ _ Hge). apply sublist_nil_l.
  - rewrite (logOf_below _ _ _ Hlt). unfold keptLog.
    rewrite append_then_filter. apply sublist_app; [|reflexivity].
    apply filter_sublist.
Qed.

Lemma logOf_recordViolations_sublist ip (times : list Z) st :
  logOf ip (recordViolations ip times st) `sublist_of` logOf ip st ++ times.
Proof.
  revert st. induction times as [|t times IH]; intros st.
  - simpl. rewrite app_nil_r. reflexivity.
  - change (recordViolations ip (t :: times) st)
      with (recordViolations ip times (recordViolation ip t st)).
    etransitivity; [apply IH|].
    change (logOf ip st ++ t :: times) with (logOf ip st ++ [t] ++ times).
    rewrite app_assoc. apply sublist_app; [|reflexivity].
    apply logOf_recordViolation_sublist.
Qed.

(** X15. The window slides: five violations of an address without a log,
    the fifth of them five minutes or more after the first, make no ban,
    whatever the times in between.  (With C5: for timestamps in order, the
    fifth violation bans exactly when it comes less than five minutes after
    the first.) *)
Theorem five_spread_out_never_ban ip t1 t2 t3 t4 t5 st :
  ipViolations st !! ip = None ->
  5 * 60 * 1000 <= t5 - t1 ->
  ipBans (recordViolations ip [t1; t2; t3; t4; t5] st) = ipBans st.
Proof.
  intros Hnone Hold.
  assert (Hlog : logOf ip st = []) by (unfold logOf; rewrite Hnone; reflexivity).
  change [t1; t2; t3; t4; t5] with ([t1; t2; t3; t4] ++ [t5]).
  unfold recordViolations. rewrite fold_left_app.
  fold (recordViolations ip [t1; t2; t3; t4] st). cbn [fold_left].
  set (st4 := recordViolations ip [t1; t2; t3; t4] st).
  assert (Hbans : ipBans st4 = ipBans st).
  { apply few_violations_keep_bans. rewrite Hlog. simpl. lia. }
  pose proof (logOf_recordViolations_sublist ip [t1; t2; t3; t4] st) as Hsub.
  rewrite Hlog in Hsub. fold st4 in Hsub. simpl in Hsub.
  apply (filter_sublist_mono (isRecent t5)) in Hsub.
  apply sublist_length in Hsub.
  assert (Hdrop : isRecent t5 t1 = false).
  { destruct (isRecent t5 t1) eqn:E; [|reflexivity].
    apply isRecent_spec in E. lia. }
  cbn [List.filter] in Hsub. rewrite Hdrop in Hsub.
  pose proof (List.filter_length_le (isRecent t5) [t2; t3; t4]) as Hthree.
  simpl length in Hthree.
  assert (Hlt : (length (keptLog ip t5 st4) < 5)%nat).
  { unfold keptLog. rewrite append_then_filter, length_app. fold (logOf ip st4).
    change (length [t5]) with 1%nat. lia. }
  rewrite (recordViolation_below _ _ _ Hlt). exact Hbans.
Qed.

(** Four violations of ["X"] at once and a fifth exactly five minutes later. *)
Lemma five_spread_out_never_ban_witness :
  ipBans (recordViolations "X" [0; 0; 0; 0; 300000] emptyState) = ∅.
Proof.
  apply (five_spread_out_never_ban "X" 0 0 0 0 300000 emptyState).
  - reflexivity.
  - lia.
Defined.

(** X16. Entries that are five minutes old or older have no influence:
    replacing the log of [ip] by any log with the same recent entries, in
    the same order, leaves the result of [recordViolation ip] at [now]
    unchanged. *)
Theorem stale_entries_do_not_matter ip now st log :
  List.filter (isRecent now) log = List.filter (isRecent now) (logOf ip st) ->
  recordViolation ip now (mkState (ipBans st) (<[ip := log]> (ipViolations st)))
  = recordViolation ip now st.
Proof.
  intros Hsame.
  set (st' := mkState (ipBans st) (<[ip := log]> (ipViolations st))).
  assert (Hrecent : recentViolations ip now st' = recentViolations ip now st).
  { unfold recentViolations, st'. cbn [ipViolations].
    rewrite lookup_insert_eq.
    change (default [] (Some log)) with log.
    fold (logOf ip st). rewrite Hsame. reflexivity. }
  unfold recordViolation. rewrite Hrecent.
  unfold existingViolations, st'. cbn [ipViolations ipBans].
  destruct (5 <=? length _)%nat.
  - rewrite !delete_insert_eq. reflexivity.
  - rewrite insert_insert_eq. reflexivity.
Qed.

(** The four violations of ["X"] with two stale entries in front. *)
Lemma stale_entries_do_not_matter_witness :
  recordViolation "X" 300005
    (mkState ∅ (<["X" := [0; 5; 10; 20; 30; 40]]> (ipViolations fourStrikes)))
  = recordViolation "X" 300005 fourStrikes.
Proof.
  apply (stale_entries_do_not_matter "X" 300005 fourStrikes [0; 5; 10; 20; 30; 40]).
  reflexivity.
Defined.

End SlidingWindow.
